(** * Content Discovery Bot: indexing engine

    A shallow embedding of [ContentDiscoveryBot]
    (migrated_functionality/src/content-discovery-integration.js) and the
    properties of its indexing, eviction, classification, statistics and
    search operations.

    Conventions of the embedding:
    - JavaScript strings are [string]s of 8-bit characters; the embedding
      covers ASCII text, on which [toLowerCase] and the [i] flag of a
      regular expression fold exactly the letters A-Z.
    - The four stores are JavaScript [Map]s.  A [Map] iterates in insertion
      order and [searchContent] returns records in that order before it
      sorts, so a [Map] is an association list with [set] replacing in
      place or appending at the end.
    - Plain JavaScript objects used as dictionaries (a record's metadata
      bag, the per-type relationship counters) are [gmap]s keyed by string.
    - [Date.now()] is an argument of the operation that reads the clock;
      [indexContent] reads it twice and takes both readings in its [Host].
    - Record fields are strings, as the three entry points build them.
    - Integer-valued numbers (sizes, counters, millisecond instants) are
      [nat] or [Z]; fractional numbers are exact rationals [Q], the value
      the double of the source approximates. *)

From Stdlib Require Import ZArith QArith Ascii String List Bool Lia.
From Stdlib Require Import Sorting.Sorted Sorting.Permutation.
From stdpp Require Import gmap strings list fin_maps.

Import ListNotations.
Local Open Scope string_scope.
Local Open Scope list_scope.
Local Open Scope Z_scope.
Local Open Scope nat_scope.

(** ** Strings *)

Module Str.

Definition isUpper (a : ascii) : bool :=
  let n := nat_of_ascii a in (65 <=? n) && (n <=? 90).

Definition lowerChar (a : ascii) : ascii :=
  if isUpper a then ascii_of_nat (nat_of_ascii a + 32) else a.

(** [String.prototype.toLowerCase] *)
Fixpoint toLowerCase (s : string) : string :=
  match s with
  | EmptyString => EmptyString
  | String a r => String (lowerChar a) (toLowerCase r)
  end.

(** [s.startsWith(p)] *)
Fixpoint startsWith (p s : string) : bool :=
  match p, s with
  | EmptyString, _ => true
  | String _ _, EmptyString => false
  | String a p', String b s' => Ascii.eqb a b && startsWith p' s'
  end.

(** [s.includes(sub)]: [sub] occurs in [s] as a contiguous substring. *)
Fixpoint includes (s sub : string) : bool :=
  startsWith sub s ||
  match s with
  | EmptyString => false
  | String _ r => includes r sub
  end.

(** The characters the class [\s] matches, among the ASCII ones:
    tab, line feed, vertical tab, form feed, carriage return, space. *)
Definition isSpace (a : ascii) : bool :=
  let n := nat_of_ascii a in ((9 <=? n) && (n <=? 13)) || (n =? 32).

(** [s.split(/\s+/)], with [cur] the piece being read and [inSep] set
    while a run of separators is being skipped.  The empty string splits
    into one empty piece, and a leading or trailing run of separators
    yields an empty first or last piece, as in JavaScript. *)
Fixpoint splitWsFrom (cur : string) (inSep : bool) (s : string) : list string :=
  match s with
  | EmptyString => [cur]
  | String a r =>
      if isSpace a then
        if inSep then splitWsFrom EmptyString true r
        else cur :: splitWsFrom EmptyString true r
      else splitWsFrom (cur +:+ String a EmptyString) false r
  end.

Definition splitWs (s : string) : list string := splitWsFrom EmptyString false s.

(** [parts.join(sep)] *)
Fixpoint join (sep : string) (parts : list string) : string :=
  match parts with
  | [] => EmptyString
  | [p] => p
  | p :: rest => p +:+ sep +:+ join sep rest
  end.

(** A string is truthy unless it is empty. *)
Definition truthy (s : string) : bool :=
  match s with EmptyString => false | _ => true end.

End Str.

(** ** JavaScript [Map] with string keys, in insertion order *)

Module JsMap.
Section Ops.
Context {V : Type}.

Definition t := list (string * V).

Definition empty : t := [].

Fixpoint get (k : string) (m : t) : option V :=
  match m with
  | [] => None
  | (k', v) :: r => if String.eqb k' k then Some v else get k r
  end.

Definition has (k : string) (m : t) : bool :=
  match get k m with Some _ => true | None => false end.

(** [m.set(k, v)]: an existing key keeps its position. *)
Fixpoint set (k : string) (v : V) (m : t) : t :=
  match m with
  | [] => [(k, v)]
  | (k', v') :: r =>
      if String.eqb k' k then (k, v) :: r else (k', v') :: set k v r
  end.

(** [m.delete(k)] *)
Fixpoint delete (k : string) (m : t) : t :=
  match m with
  | [] => []
  | (k', v') :: r =>
      if String.eqb k' k then delete k r else (k', v') :: delete k r
  end.

Definition size (m : t) : nat := length m.

Definition keys (m : t) : list string := map fst m.

Definition values (m : t) : list V := map snd m.

End Ops.
Arguments t : clear implicits.
End JsMap.

(** ** Data model *)

(** One edge captured by [extractRelationships]. *)
Record Relationship := {
  rel_type : string;
  rel_target : string
}.

(** The object built and returned by [classifyContent]. *)
Record Classification := {
  category : string;
  priority : string;
  tags : list string;
  confidence : Q
}.

(** A value of the metadata bag. *)
Inductive MetaValue :=
| MString (s : string)
| MNumber (q : Q).

(** [contentData]: the object the three [process...] entry points build and
    [indexContent] completes.  [classification] and [searchableText] are
    absent until [indexContent] assigns them. *)
Record ContentData := {
  id : string;
  type : string;
  title : string;
  description : string;
  text : string;
  metadata : gmap string MetaValue;
  relationships : list Relationship;
  timestamp : Z;
  source : string;
  classification : option Classification;
  searchableText : option string
}.

(** [searchEntry], the object [optimizeForSearch] stores in [contentCache]. *)
Record SearchEntry := {
  se_id : string;
  se_title : string;
  se_description : string;
  se_text : string;
  se_category : string;
  se_priority : string;
  se_tags : list string;
  se_searchableText : string;
  se_timestamp : Z
}.

Record IndexingStatus := {
  totalContent : nat;
  indexedContent : nat;
  pendingContent : nat;
  failedContent : nat;
  lastIndexed : option Z
}.

(** The bot: its four stores and its status object. *)
Record Bot := {
  contentIndex : JsMap.t ContentData;
  metadataStore : JsMap.t (gmap string MetaValue);
  relationshipGraph : JsMap.t (list Relationship);
  contentCache : JsMap.t SearchEntry;
  indexingStatus : IndexingStatus
}.

(** The state the constructor leaves. *)
Definition initial : Bot := {|
  contentIndex := JsMap.empty;
  metadataStore := JsMap.empty;
  relationshipGraph := JsMap.empty;
  contentCache := JsMap.empty;
  indexingStatus := {|
    totalContent := 0; indexedContent := 0; pendingContent := 0;
    failedContent := 0; lastIndexed := None |}
|}.

(** ** Duplicate detection *)

(** [isDuplicate]: some indexed record has the same [text] and [source]. *)
Definition sameTextSource (c existing : ContentData) : bool :=
  String.eqb (text existing) (text c) && String.eqb (source existing) (source c).

Definition isDuplicate (c : ContentData) (b : Bot) : bool :=
  existsb (fun e => sameTextSource c (snd e)) (contentIndex b).

(** ** Classification *)

Definition withRule (cl : Classification) (cat pri : string) (conf : Q) : Classification :=
  {| category := cat; priority := pri; tags := tags cl; confidence := conf |}.

Definition commonTags : list string :=
  ["dashboard"; "service"; "metric"; "user"; "system"; "error"; "status";
   "health"; "performance"].

(** The text [classifyContent] scans. *)
Definition classifyText (c : ContentData) : string :=
  Str.toLowerCase (text c +:+ " " +:+ title c).

(** [classifyContent]: five independent [if] statements in source order,
    each overwriting category, priority and confidence, then the tags. *)
Definition classifyContent (c : ContentData) : Classification :=
  let txt := classifyText c in
  let cl0 := {| category := "unknown"; priority := "low"; tags := [];
                confidence := 0.5 |} in
  let cl1 := if Str.includes txt "dashboard" || String.eqb (type c) "dashboard"
             then withRule cl0 "dashboard" "high" 0.9 else cl0 in
  let cl2 := if Str.includes txt "service" || String.eqb (type c) "service"
             then withRule cl1 "service" "high" 0.8 else cl1 in
  let cl3 := if Str.includes txt "metric" || Str.includes txt "performance"
                || String.eqb (type c) "metric"
             then withRule cl2 "metric" "medium" 0.8 else cl2 in
  let cl4 := if Str.includes txt "user" || Str.includes txt "profile"
                || String.eqb (type c) "user"
             then withRule cl3 "user" "medium" 0.7 else cl3 in
  let cl5 := if Str.includes txt "system" || Str.includes txt "config"
                || String.eqb (type c) "system"
             then withRule cl4 "system" "high" 0.8 else cl4 in
  {| category := category cl5; priority := priority cl5;
     tags := List.filter (fun tag => Str.includes txt tag) commonTags;
     confidence := confidence cl5 |}.

(** ** Metadata enrichment *)

Definition Qlt_bool (x y : Q) : bool := negb (Qle_bool y x).

Definition numOfNat (n : nat) : Q := inject_Z (Z.of_nat n).

Definition englishWords : list string :=
  ["the"; "and"; "is"; "are"; "for"; "with"; "this"; "that"].

(** [detectLanguage]: the share of the eight listed words that occur in
    the lowercased text, against 0.3. *)
Definition detectLanguage (txt : string) : string :=
  let englishWordCount :=
    length (List.filter (fun word => Str.includes (Str.toLowerCase txt) word)
                        englishWords) in
  if Qlt_bool 0.3 (numOfNat englishWordCount / numOfNat (length englishWords))
  then "english" else "unknown".

(** [calculateQualityScore] *)
Definition calculateQualityScore (c : ContentData) : Q :=
  let score := 0.5%Q in
  let score := if Str.truthy (title c) && (5 <? String.length (title c))
               then (score + 0.2)%Q else score in
  let score := if Str.truthy (description c) && (10 <? String.length (description c))
               then (score + 0.2)%Q else score in
  let score := if Str.truthy (text c) && (20 <? String.length (text c))
               then (score + 0.1)%Q else score in
  if Qle_bool score 1.0 then score else 1.0%Q.

(** [calculateUpdateFrequency]: looks [contentId] up in the primary index
    and buckets the age of the record found there; [now] is [Date.now()]. *)
Definition calculateUpdateFrequency (now : Z) (contentId : string) (b : Bot) : string :=
  match JsMap.get contentId (contentIndex b) with
  | None => "unknown"
  | Some content =>
      let age := (now - timestamp content)%Z in
      let hours := (inject_Z age / inject_Z (1000 * 60 * 60))%Q in
      if Qlt_bool hours 1 then "high"
      else if Qlt_bool hours 24 then "medium"
      else "low"
  end.

(** [enrichMetadata]: the [enriched] object. *)
Definition enrichMetadata (now : Z) (c : ContentData) (b : Bot) : gmap string MetaValue :=
  <["updateFrequency" := MString (calculateUpdateFrequency now (id c) b)]>
  (<["qualityScore" := MNumber (calculateQualityScore c)]>
  (<["language" := MString (detectLanguage (text c))]>
  (<["wordCount" := MNumber (numOfNat (length (Str.splitWs (text c))))]>
  (<["contentLength" := MNumber (numOfNat (String.length (text c)))]> ∅)))).

(** ** Updates of one record object *)

Definition setClassification (cl : Classification) (c : ContentData) : ContentData :=
  {| id := id c; type := type c; title := title c; description := description c;
     text := text c; metadata := metadata c; relationships := relationships c;
     timestamp := timestamp c; source := source c;
     classification := Some cl; searchableText := searchableText c |}.

Definition setMetadata (m : gmap string MetaValue) (c : ContentData) : ContentData :=
  {| id := id c; type := type c; title := title c; description := description c;
     text := text c; metadata := m; relationships := relationships c;
     timestamp := timestamp c; source := source c;
     classification := classification c; searchableText := searchableText c |}.

Definition setSearchableText (s : string) (c : ContentData) : ContentData :=
  {| id := id c; type := type c; title := title c; description := description c;
     text := text c; metadata := metadata c; relationships := relationships c;
     timestamp := timestamp c; source := source c;
     classification := classification c; searchableText := Some s |}.

(** ** Updates of the stores *)

Definition withContentIndex (m : JsMap.t ContentData) (b : Bot) : Bot :=
  {| contentIndex := m; metadataStore := metadataStore b;
     relationshipGraph := relationshipGraph b; contentCache := contentCache b;
     indexingStatus := indexingStatus b |}.

Definition withMetadataStore (m : JsMap.t (gmap string MetaValue)) (b : Bot) : Bot :=
  {| contentIndex := contentIndex b; metadataStore := m;
     relationshipGraph := relationshipGraph b; contentCache := contentCache b;
     indexingStatus := indexingStatus b |}.

Definition withRelationshipGraph (m : JsMap.t (list Relationship)) (b : Bot) : Bot :=
  {| contentIndex := contentIndex b; metadataStore := metadataStore b;
     relationshipGraph := m; contentCache := contentCache b;
     indexingStatus := indexingStatus b |}.

Definition withContentCache (m : JsMap.t SearchEntry) (b : Bot) : Bot :=
  {| contentIndex := contentIndex b; metadataStore := metadataStore b;
     relationshipGraph := relationshipGraph b; contentCache := m;
     indexingStatus := indexingStatus b |}.

Definition withIndexingStatus (st : IndexingStatus) (b : Bot) : Bot :=
  {| contentIndex := contentIndex b; metadataStore := metadataStore b;
     relationshipGraph := relationshipGraph b; contentCache := contentCache b;
     indexingStatus := st |}.

(** ** Relationship graph *)

(** The body of the [forEach] of [updateRelationshipGraph]: create the
    adjacency array of [cid] when it is missing, then push onto it. *)
Definition pushRelationship (cid : string) (g : JsMap.t (list Relationship))
    (r : Relationship) : JsMap.t (list Relationship) :=
  let g' := if JsMap.has cid g then g else JsMap.set cid [] g in
  match JsMap.get cid g' with
  | Some edges => JsMap.set cid (edges ++ [r]) g'
  | None => g'
  end.

Definition updateRelationshipGraph (c : ContentData) (b : Bot) : Bot :=
  withRelationshipGraph
    (fold_left (pushRelationship (id c)) (relationships c) (relationshipGraph b)) b.

(** ** Indexing status *)

(** [updateIndexingStatus]: the [switch] has no default, so any other
    status only refreshes [totalContent]. *)
Definition updateIndexingStatus (status : string) (now : Z) (b : Bot) : Bot :=
  let st := indexingStatus b in
  let st1 :=
    if String.eqb status "indexed" then
      {| totalContent := totalContent st; indexedContent := S (indexedContent st);
         pendingContent := pendingContent st; failedContent := failedContent st;
         lastIndexed := Some now |}
    else if String.eqb status "failed" then
      {| totalContent := totalContent st; indexedContent := indexedContent st;
         pendingContent := pendingContent st; failedContent := S (failedContent st);
         lastIndexed := lastIndexed st |}
    else if String.eqb status "pending" then
      {| totalContent := totalContent st; indexedContent := indexedContent st;
         pendingContent := S (pendingContent st); failedContent := failedContent st;
         lastIndexed := lastIndexed st |}
    else st in
  withIndexingStatus
    {| totalContent := JsMap.size (contentIndex b);
       indexedContent := indexedContent st1; pendingContent := pendingContent st1;
       failedContent := failedContent st1; lastIndexed := lastIndexed st1 |} b.

(** ** Search projection *)

(** The [searchableText] of [optimizeForSearch]. *)
Definition buildSearchableText (c : ContentData) (cl : Classification) : string :=
  Str.toLowerCase
    (Str.join " " ([title c; description c; text c] ++ tags cl)).

Definition buildSearchEntry (c : ContentData) (cl : Classification) (st : string)
    : SearchEntry :=
  {| se_id := id c; se_title := title c; se_description := description c;
     se_text := text c; se_category := category cl; se_priority := priority cl;
     se_tags := tags cl; se_searchableText := st; se_timestamp := timestamp c |}.

(** What one call of [indexContent] reads from its surroundings: the two
    clock readings ([calculateUpdateFrequency], [updateIndexingStatus]) and
    [window.modernSearch], absent or an [addSearchableContent] that returns
    [true] when it completes and [false] when it throws. *)
Record Host := {
  clockEnrich : Z;
  clockStatus : Z;
  modernSearch : option (SearchEntry -> bool)
}.

(** [updateSearchIndex] and [optimizeForSearch] write to the stores and may
    then throw: they return the bot they leave and whether they completed. *)
Definition updateSearchIndex (h : Host) (searchEntry : SearchEntry) (b : Bot)
    : Bot * bool :=
  let b' :=
    withContentCache (JsMap.set (se_id searchEntry) searchEntry (contentCache b)) b in
  (b', match modernSearch h with
       | None => true
       | Some addSearchableContent => addSearchableContent searchEntry
       end).

(** [optimizeForSearch] is called on the object that [contentIndex] holds
    under its id, and assigns its [searchableText]: the [JsMap.set] on that
    key stands for the assignment through the alias.  Reading the tags of a
    missing classification is a TypeError. *)
Definition optimizeForSearch (h : Host) (c : ContentData) (b : Bot) : Bot * bool :=
  match classification c with
  | None => (b, false)
  | Some cl =>
      let st := buildSearchableText c cl in
      let c' := setSearchableText st c in
      let b' := withContentIndex (JsMap.set (id c') c' (contentIndex b)) b in
      updateSearchIndex h (buildSearchEntry c' cl st) b'
  end.

(** ** indexContent *)

(** On a record of this type the only statement of the [try] block that
    can throw is the call into [window.modernSearch], after every store is
    written; the [catch] then counts a failure. *)
Definition indexContent (h : Host) (c0 : ContentData) (b : Bot) : Bot :=
  if isDuplicate c0 b then b
  else
    let cl := classifyContent c0 in
    let c1 := setClassification cl c0 in
    let enriched := enrichMetadata (clockEnrich h) c1 b in
    let c2 := setMetadata (enriched ∪ metadata c1) c1 in
    let b1 := withContentIndex (JsMap.set (id c2) c2 (contentIndex b)) b in
    let b2 := withMetadataStore (JsMap.set (id c2) (metadata c2) (metadataStore b1)) b1 in
    let b3 := updateRelationshipGraph c2 b2 in
    let b4 := updateIndexingStatus "indexed" (clockStatus h) b3 in
    let (b5, completed) := optimizeForSearch h c2 b4 in
    if completed then b5 else updateIndexingStatus "failed" (clockStatus h) b5.




(** ** Eviction, discovery passes, teardown *)

Definition maxAge : Z := 24 * 60 * 60 * 1000.

Definition evict (contentId : string) (b : Bot) : Bot :=
  {| contentIndex := JsMap.delete contentId (contentIndex b);
     metadataStore := JsMap.delete contentId (metadataStore b);
     relationshipGraph := relationshipGraph b;
     contentCache := JsMap.delete contentId (contentCache b);
     indexingStatus := indexingStatus b |}.

(** [now - contentData.timestamp > maxAge] *)
Definition expired (now : Z) (c : ContentData) : bool :=
  (maxAge <? now - timestamp c)%Z.

(** The body of the loop of [cleanupOldContent]. *)
Definition evictExpired (now : Z) (acc : Bot) (e : string * ContentData) : Bot :=
  if expired now (snd e) then evict (fst e) acc else acc.

(** [cleanupOldContent]: one pass over the entries of [contentIndex]. *)
Definition cleanupOldContent (now : Z) (b : Bot) : Bot :=
  fold_left (evictExpired now) (contentIndex b) b.

(** [processNewContent] on the records a scan of the page extracts. *)
Definition indexAll (found : list (Host * ContentData)) (b : Bot) : Bot :=
  fold_left (fun acc hc => indexContent (fst hc) (snd hc) acc) found b.

(** [refreshContentIndex] *)
Definition refreshContentIndex (found : list (Host * ContentData)) (now : Z) (b : Bot) : Bot :=
  cleanupOldContent now (indexAll found b).

Definition resetIndexingStatus (now : Z) (b : Bot) : Bot :=
  withIndexingStatus
    {| totalContent := 0; indexedContent := 0; pendingContent := 0;
       failedContent := 0; lastIndexed := Some now |} b.

(** [updateContentRelationships] *)
Definition updateContentRelationships (b : Bot) : Bot :=
  fold_left (fun acc e => updateRelationshipGraph (snd e) acc) (contentIndex b) b.

(** [performFullContentDiscovery]; [discoverExternalContent] only logs. *)
Definition performFullContentDiscovery (now : Z) (found : list (Host * ContentData))
    (b : Bot) : Bot :=
  updateContentRelationships (indexAll found (resetIndexingStatus now b)).

(** [destroy] *)
Definition destroy (b : Bot) : Bot :=
  {| contentIndex := JsMap.empty; metadataStore := JsMap.empty;
     relationshipGraph := JsMap.empty; contentCache := JsMap.empty;
     indexingStatus := indexingStatus b |}.

(** The operations that change the bot, and the states they reach from
    the constructor's. *)
Inductive Op :=
| OIndex (h : Host) (c : ContentData)
| OCleanup (now : Z)
| ORefresh (found : list (Host * ContentData)) (now : Z)
| OFullDiscovery (now : Z) (found : list (Host * ContentData))
| ODestroy.

Definition step (o : Op) (b : Bot) : Bot :=
  match o with
  | OIndex h c => indexContent h c b
  | OCleanup now => cleanupOldContent now b
  | ORefresh found now => refreshContentIndex found now b
  | OFullDiscovery now found => performFullContentDiscovery now found b
  | ODestroy => destroy b
  end.

Inductive Reachable : Bot -> Prop :=
| reach_initial : Reachable initial
| reach_step o b : Reachable b -> Reachable (step o b).

(** ** Relationship statistics *)

(** The result of dividing one non-negative integer by another in
    JavaScript: [0 / 0] is [NaN], [n / 0] is [Infinity] for positive [n]. *)
Inductive JsNumber :=
| NaN
| Infinity
| Finite (q : Q).

Definition jsDivide (a b : nat) : JsNumber :=
  match b with
  | O => match a with O => NaN | S _ => Infinity end
  | S _ => Finite (numOfNat a / numOfNat b)
  end.

Record RelationshipStats := {
  totalRelationships : nat;
  relationshipTypes : gmap string nat;
  averageRelationshipsPerContent : JsNumber
}.

(** [relationshipTypes[rel.type] = (relationshipTypes[rel.type] || 0) + 1] *)
Definition countType (types : gmap string nat) (r : Relationship) : gmap string nat :=
  <[rel_type r := default 0 (types !! rel_type r) + 1]> types.

(** [getRelationshipStats] *)
Definition getRelationshipStats (b : Bot) : RelationshipStats :=
  let total :=
    fold_left (fun acc e => acc + length (snd e)) (relationshipGraph b) 0 in
  let types :=
    fold_left (fun acc e => fold_left countType (snd e) acc) (relationshipGraph b) ∅ in
  {| totalRelationships := total;
     relationshipTypes := types;
     averageRelationshipsPerContent := jsDivide total (JsMap.size (contentIndex b)) |}.

(** ** Regular expressions built from query words *)

(** A call either returns or throws. *)
Inductive Outcome (A : Type) :=
| Returns (a : A)
| Throws.
Arguments Returns {A} a.
Arguments Throws {A}.

Definition bind {A B : Type} (o : Outcome A) (k : A -> Outcome B) : Outcome B :=
  match o with
  | Returns a => k a
  | Throws => Throws
  end.

Notation "'let!' x ':=' o 'in' k" := (bind o (fun x => k))
  (at level 10, x name, k at level 200).

(** [new RegExp(word, 'gi')] followed by [text.match(regex)], as the number
    of matches (0 for the [null] of no match).

    - A pattern without syntax characters is a sequence of literal
      characters, and matching is implemented here.
    - A pattern whose groups or classes are not closed, or that ends in a
      backslash, is a SyntaxError: the constructor throws.
    - Every other pattern is left to the engine of the host, a parameter:
      [None] when its constructor throws, else the match count. *)
Module RegExp.

Definition Engine := string -> option (string -> nat).

Definition backslash : ascii := ascii_of_nat 92.

(** The SyntaxCharacter class of the pattern grammar. *)
Definition syntaxChars : list ascii :=
  backslash :: list_ascii_of_string "^$.*+?()[]{}|".

Definition isSyntaxChar (a : ascii) : bool := existsb (Ascii.eqb a) syntaxChars.

Fixpoint isLiteral (p : string) : bool :=
  match p with
  | EmptyString => true
  | String a r => negb (isSyntaxChar a) && isLiteral r
  end.

(** One left-to-right scan of the pattern: [depth] open groups, inside a
    character class or not, after a backslash or not. *)
Fixpoint closed (depth : nat) (inClass escaped : bool) (p : string) : bool :=
  match p with
  | EmptyString => (depth =? 0) && negb inClass && negb escaped
  | String a r =>
      if escaped then closed depth inClass false r
      else if Ascii.eqb a backslash then closed depth inClass true r
      else if inClass then closed depth (negb (Ascii.eqb a "]")) false r
      else if Ascii.eqb a "[" then closed depth true false r
      else if Ascii.eqb a "(" then closed (S depth) false false r
      else if Ascii.eqb a ")" then
        match depth with
        | O => false
        | S d => closed d false false r
        end
      else closed depth false false r
  end.

(** The literal pattern [p] matches at the start of [s], ignoring case. *)
Fixpoint matchesHere (p s : string) : bool :=
  match p, s with
  | EmptyString, _ => true
  | String _ _, EmptyString => false
  | String a p', String c s' =>
      Ascii.eqb (Str.lowerChar a) (Str.lowerChar c) && matchesHere p' s'
  end.

(** The global match loop for a literal pattern: [skip] characters are
    still covered by the previous match; after a match the search resumes
    at its end, and one position further when the match was empty. *)
Fixpoint countLiteral (p : string) (skip : nat) (s : string) : nat :=
  match s with
  | EmptyString =>
      match skip with
      | O => if matchesHere p EmptyString then 1 else 0
      | S _ => 0
      end
  | String _ r =>
      match skip with
      | S k => countLiteral p k r
      | O =>
          if matchesHere p s
          then S (countLiteral p (String.length p - 1) r)
          else countLiteral p 0 r
      end
  end.

Definition matchCount (host : Engine) (pattern : string) : option (string -> nat) :=
  if isLiteral pattern then Some (countLiteral pattern 0)
  else if closed 0 false false pattern then host pattern
  else None.

End RegExp.

(** ** Search *)

(** [calculateRelevance] *)
Definition calculateRelevance (host : RegExp.Engine) (query txt : string) : Outcome nat :=
  fold_left
    (fun acc word =>
       let! score := acc in
       match RegExp.matchCount host word with
       | Some count => Returns (score + count txt)
       | None => Throws
       end)
    (Str.splitWs query) (Returns 0).

(** The [filters] argument; a missing key is [None]. *)
Record Filters := {
  f_category : option string;
  f_priority : option string;
  f_type : option string
}.

Definition noFilters : Filters :=
  {| f_category := None; f_priority := None; f_type := None |}.

(** [filters.k && actual !== filters.k]: an absent or empty filter value
    rejects nothing. *)
Definition rejects (wanted : option string) (actual : option string) : bool :=
  match wanted with
  | Some w =>
      Str.truthy w &&
      negb (match actual with Some a => String.eqb a w | None => false end)
  | None => false
  end.

Definition passesFilters (f : Filters) (c : ContentData) : bool :=
  negb (rejects (f_category f) (option_map category (classification c))) &&
  negb (rejects (f_priority f) (option_map priority (classification c))) &&
  negb (rejects (f_type f) (Some (type c))).

(** [content.searchableText || ''] *)
Definition searchableTextOf (c : ContentData) : string :=
  match searchableText c with Some s => s | None => EmptyString end.

(** One element of the result: the record with its [relevance]. *)
Record SearchResult := {
  content : ContentData;
  relevance : nat
}.

(** The loop of [searchContent] over the entries of the primary index. *)
Fixpoint collectResults (host : RegExp.Engine) (queryLower : string) (f : Filters)
    (entries : JsMap.t ContentData) : Outcome (list SearchResult) :=
  match entries with
  | [] => Returns []
  | (_, c) :: rest =>
      if passesFilters f c && Str.includes (searchableTextOf c) queryLower then
        let! r := calculateRelevance host queryLower (searchableTextOf c) in
        let! rs := collectResults host queryLower f rest in
        Returns ({| content := c; relevance := r |} :: rs)
      else collectResults host queryLower f rest
  end.

(** [results.sort((a, b) => b.relevance - a.relevance)].  The sort of an
    array is stable, so the result is the one ordering by descending
    relevance that keeps equal elements in their order; insertion from
    the right computes it. *)
Fixpoint insertByRelevance (x : SearchResult) (l : list SearchResult) : list SearchResult :=
  match l with
  | [] => [x]
  | y :: r =>
      if relevance x <? relevance y then y :: insertByRelevance x r else x :: l
  end.

Definition sortByRelevance (l : list SearchResult) : list SearchResult :=
  fold_right insertByRelevance [] l.

(** [searchContent] *)
Definition searchContent (host : RegExp.Engine) (query : string) (f : Filters) (b : Bot)
    : Outcome (list SearchResult) :=
  let queryLower := Str.toLowerCase query in
  let! results := collectResults host queryLower f (contentIndex b) in
  Returns (sortByRelevance results).

(** ** The properties, in the words of the specification *)

(** The buckets of [updateFrequency], on an age in milliseconds. *)
Definition bucketByAge (age : Z) : string :=
  if (age <? 3600000)%Z then "high"
  else if (age <? 86400000)%Z then "medium"
  else "low".



(** The relevance of a text for a query of literal words: the occurrences
    of each word, added up. *)
Definition occurrenceSum (queryLower txt : string) : nat :=
  list_sum (map (fun word => RegExp.countLiteral word 0 txt) (Str.splitWs queryLower)).

(** Every word of the query is free of regular-expression syntax. *)
Definition literalQuery (queryLower : string) : bool :=
  forallb RegExp.isLiteral (Str.splitWs queryLower).

(** The test of the loop of [searchContent], and the result element it
    pushes when every word of the query is literal. *)
Definition eligibleb (f : Filters) (queryLower : string) (c : ContentData) : bool :=
  passesFilters f c && Str.includes (searchableTextOf c) queryLower.

Definition scored (queryLower : string) (c : ContentData) : SearchResult :=
  {| content := c; relevance := occurrenceSum queryLower (searchableTextOf c) |}.


(** Two records are the same content for [isDuplicate]. *)
Definition sameContent (c1 c2 : ContentData) : Prop :=
  text c1 = text c2 /\ source c1 = source c2.

(** The three stores that describe records hold the same ids. *)
Definition storesAligned (b : Bot) : Prop :=
  JsMap.keys (contentCache b) = JsMap.keys (contentIndex b) /\
  JsMap.keys (metadataStore b) = JsMap.keys (contentIndex b).

(** No two entries of the primary index are the same content. *)
Definition deduplicated (b : Bot) : Prop :=
  forall e1 e2, In e1 (contentIndex b) -> In e2 (contentIndex b) ->
    sameContent (snd e1) (snd e2) -> e1 = e2.

(** What every reachable state satisfies. *)
Record Consistent (b : Bot) : Prop := {
  cons_aligned : storesAligned b;
  cons_keys : List.NoDup (JsMap.keys (contentIndex b));
  cons_dedup : deduplicated b
}.

(** An id is in none of the three stores that describe records. *)
Definition absentEverywhere (k : string) (b : Bot) : Prop :=
  JsMap.has k (contentIndex b) = false /\
  JsMap.has k (metadataStore b) = false /\
  JsMap.has k (contentCache b) = false.

(** The record [indexContent] holds after classification and enrichment,
    and the one the primary index ends up with. *)
Definition enrichedRecord (h : Host) (c : ContentData) (b : Bot) : ContentData :=
  let c1 := setClassification (classifyContent c) c in
  setMetadata (enrichMetadata (clockEnrich h) c1 b ∪ metadata c1) c1.

Definition storedRecord (h : Host) (c : ContentData) (b : Bot) : ContentData :=
  setSearchableText (buildSearchableText (enrichedRecord h c b) (classifyContent c))
    (enrichedRecord h c b).

Definition storedEntry (h : Host) (c : ContentData) (b : Bot) : SearchEntry :=
  buildSearchEntry (storedRecord h c b) (classifyContent c)
    (buildSearchableText (enrichedRecord h c b) (classifyContent c)).

(** ** Sample data *)

Definition quietHost (now : Z) : Host :=
  {| clockEnrich := now; clockStatus := now; modernSearch := None |}.

(** An engine of the host that accepts every pattern it is asked for. *)
Definition lenientEngine : RegExp.Engine := fun _ => Some (fun _ => 0).

(** A card of the page, as captured at instant [t]. *)
Definition healthCardAt (t : Z) : ContentData :=
  {| id := "div_card_health"; type := "text"; title := "";
     description := ""; text := "Dashboard system health metric";
     metadata := ∅;
     relationships := [ {| rel_type := "parent"; rel_target := "body__" |} ];
     timestamp := t; source := "dom";
     classification := None; searchableText := None |}.

Definition healthCard : ContentData := healthCardAt 1000.

Definition formulaCell : ContentData :=
  {| id := "td_formula"; type := "text"; title := "Rate";
     description := ""; text := "rate(requests";
     metadata := ∅; relationships := []; timestamp := 2000; source := "dom";
     classification := None; searchableText := None |}.

Definition oneDay : Z := 86400000.

(** The bot after one ingestion of [healthCard] at its capture time. *)
Definition indexedOnce : Bot := indexContent (quietHost 1000) healthCard initial.

(** A bot whose one record has an opening parenthesis in its text. *)
Definition formulaIndexed : Bot := indexContent (quietHost 2000) formulaCell initial.

(** The same bot two days later, after an eviction pass. *)
Definition evictedLater : Bot := cleanupOldContent (1000 + 2 * oneDay) indexedOnce.

(** The same bot after the discovery pass that finds the same card again. *)
Definition rediscovered : Bot :=
  performFullContentDiscovery 5000 [(quietHost 5000, healthCardAt 5000)] indexedOnce.

(** * The rest of the bot *)

(** ** Identity and type of a page element *)

(** What [generateContentId] and [detectContentType] read from an element.
    A property that is missing or empty reads as the empty string, which
    is what [element.id || ''] and the like make of both. *)
Record ElementView := {
  el_tagName : string;
  el_id : string;
  el_className : string;
  el_textContent : string;
  el_href : string
}.

Module Dom.

(** The characters of the class [[a-zA-Z0-9_]]. *)
Definition isWordChar (a : ascii) : bool :=
  let n := nat_of_ascii a in
  ((97 <=? n) && (n <=? 122)) || ((65 <=? n) && (n <=? 90)) ||
  ((48 <=? n) && (n <=? 57)) || (n =? 95).

Definition underscore : ascii := ascii_of_nat 95.

(** [s.replace(/[^a-zA-Z0-9_]/g, '_')] *)
Fixpoint sanitize (s : string) : string :=
  match s with
  | EmptyString => EmptyString
  | String a r => String (if isWordChar a then a else underscore) (sanitize r)
  end.

(** [s.substring(0, n)] *)
Fixpoint firstChars (n : nat) (s : string) : string :=
  match n with
  | O => EmptyString
  | S k =>
      match s with
      | EmptyString => EmptyString
      | String a r => String a (firstChars k r)
      end
  end.

(** [s.split('/').pop()]: what follows the last slash, [cur] being the
    piece read so far. *)
Fixpoint lastSegmentFrom (cur s : string) : string :=
  match s with
  | EmptyString => cur
  | String a r =>
      if Ascii.eqb a "/" then lastSegmentFrom EmptyString r
      else lastSegmentFrom (cur +:+ String a EmptyString) r
  end.

Definition lastSegment (s : string) : string := lastSegmentFrom EmptyString s.

End Dom.

(** [generateContentId] *)
Definition generateContentId (e : ElementView) : string :=
  Dom.sanitize
    (Str.toLowerCase (el_tagName e) +:+ "_" +:+ el_id e +:+ "_" +:+
     el_className e +:+ "_" +:+ Dom.firstChars 50 (el_textContent e)).

(** [detectContentType] *)
Definition detectContentType (e : ElementView) : string :=
  let tagName := Str.toLowerCase (el_tagName e) in
  let className := Str.toLowerCase (el_className e) in
  if String.eqb tagName "img" || Str.includes className "image" then "image"
  else if String.eqb tagName "video" then "video"
  else if String.eqb tagName "audio" then "audio"
  else if String.eqb tagName "code" || Str.includes className "code" then "code"
  else if String.eqb tagName "table" || Str.includes className "table" then "data"
  else if String.eqb tagName "a" && Str.truthy (el_href e) then "link"
  else if Str.includes className "dashboard" then "dashboard"
  else if Str.includes className "service" then "service"
  else if Str.includes className "metric" then "metric"
  else if Str.includes className "user" then "user"
  else if Str.includes className "system" then "system"
  else "text".

(** The object [processAJAXResponse] builds once it has the payload:
    [payload] is the response data when it is a string and its JSON text
    otherwise.  The id is that of the stand-in element
    [{ tagName: 'AJAX', textContent: url }]. *)
Definition ajaxContent (now : Z) (url payload : string) : ContentData :=
  {| id := generateContentId
             {| el_tagName := "AJAX"; el_id := ""; el_className := "";
                el_textContent := url; el_href := "" |};
     type := "data"; title := Dom.lastSegment url;
     description := "AJAX response data"; text := payload;
     metadata := <["method" := MString "GET"]> (<["url" := MString url]> ∅);
     relationships := []; timestamp := now; source := "ajax";
     classification := None; searchableText := None |}.

(** ** Distributions *)

(** [d[k] = (d[k] || 0) + 1] *)
Definition increment (d : gmap string nat) (k : string) : gmap string nat :=
  <[k := default 0 (d !! k) + 1]> d.

(** [value || fallback] on a string that may be missing. *)
Definition orElse (fallback : string) (value : option string) : string :=
  match value with
  | Some v => if Str.truthy v then v else fallback
  | None => fallback
  end.

Definition categoryOf (c : ContentData) : string :=
  orElse "unknown" (option_map category (classification c)).

Definition priorityOf (c : ContentData) : string :=
  orElse "low" (option_map priority (classification c)).

(** [getContentDistribution] *)
Definition getContentDistribution (b : Bot) : gmap string nat :=
  fold_left (fun d e => increment d (type (snd e))) (contentIndex b) ∅.

(** [getCategoryDistribution] *)
Definition getCategoryDistribution (b : Bot) : gmap string nat :=
  fold_left (fun d e => increment d (categoryOf (snd e))) (contentIndex b) ∅.

(** [getPriorityDistribution] *)
Definition getPriorityDistribution (b : Bot) : gmap string nat :=
  fold_left (fun d e => increment d (priorityOf (snd e))) (contentIndex b) ∅.

(** The number of elements of [l] whose key is [k]. *)
Definition countKey {A : Type} (key : A -> string) (k : string) (l : list A) : nat :=
  length (List.filter (fun x => String.eqb (key x) k) l).

(** The counts of a distribution, added up. *)
Definition sumCounts (d : gmap string nat) : nat :=
  map_fold (fun _ n acc => n + acc) 0 d.

(** ** Recommendations and insights *)

Record Recommendation := {
  rec_type : string;
  rec_message : string;
  rec_suggestion : string
}.

Definition coverageRecommendation : Recommendation :=
  {| rec_type := "coverage"; rec_message := "Low dashboard content coverage";
     rec_suggestion := "Add more dashboard-related content" |}.

Definition qualityRecommendation : Recommendation :=
  {| rec_type := "quality"; rec_message := "High percentage of low-quality content";
     rec_suggestion := "Improve content quality and metadata" |}.

Definition relationshipsRecommendation : Recommendation :=
  {| rec_type := "relationships"; rec_message := "Low content relationship density";
     rec_suggestion := "Improve content linking and relationships" |}.

(** [content.metadata?.qualityScore < 0.5]: a missing key compares as
    [undefined], never below; a string is converted to a number by the
    host, [stringBelow s q] telling whether that number is below [q]. *)
Definition lowQuality (stringBelow : string -> Q -> bool) (c : ContentData) : bool :=
  match metadata c !! "qualityScore" with
  | Some (MNumber q) => Qlt_bool q 0.5
  | Some (MString s) => stringBelow s 0.5%Q
  | None => false
  end.

(** [x < q] for a result of [jsDivide]. *)
Definition jsBelow (x : JsNumber) (q : Q) : bool :=
  match x with
  | Finite v => Qlt_bool v q
  | NaN | Infinity => false
  end.

(** [generateContentRecommendations] *)
Definition generateContentRecommendations (stringBelow : string -> Q -> bool) (b : Bot)
    : list Recommendation :=
  let categories := getCategoryDistribution b in
  let coverage :=
    match categories !! "dashboard" with
    | Some n => if n <? 5 then [coverageRecommendation] else []
    | None => []
    end in
  let lowQualityContent :=
    length (List.filter (fun e => lowQuality stringBelow (snd e)) (contentIndex b)) in
  let quality :=
    if Qlt_bool (numOfNat (JsMap.size (contentIndex b)) * 0.3)
                (numOfNat lowQualityContent)
    then [qualityRecommendation] else [] in
  let relationshipStats := getRelationshipStats b in
  let density :=
    if jsBelow (averageRelationshipsPerContent relationshipStats) 2
    then [relationshipsRecommendation] else [] in
  coverage ++ quality ++ density.

(** [getContentDiscoveryInsights] *)
Record Insights := {
  ins_indexingStatus : IndexingStatus;
  ins_contentDistribution : gmap string nat;
  ins_categoryDistribution : gmap string nat;
  ins_priorityDistribution : gmap string nat;
  ins_relationshipStats : RelationshipStats;
  ins_recommendations : list Recommendation
}.

Definition getContentDiscoveryInsights (stringBelow : string -> Q -> bool) (b : Bot)
    : Insights :=
  {| ins_indexingStatus := indexingStatus b;
     ins_contentDistribution := getContentDistribution b;
     ins_categoryDistribution := getCategoryDistribution b;
     ins_priorityDistribution := getPriorityDistribution b;
     ins_relationshipStats := getRelationshipStats b;
     ins_recommendations := generateContentRecommendations stringBelow b |}.

(** ** Notions used by the further properties *)

(** The entry of [contentCache] that [optimizeForSearch] derives from a
    record that has its classification and searchable text. *)
Definition projectionOf (c : ContentData) : option SearchEntry :=
  match classification c, searchableText c with
  | Some cl, Some st => Some (buildSearchEntry c cl st)
  | _, _ => None
  end.

(** Two maps with the same keys in the same order and related values. *)
Definition related {V W : Type} (R : V -> W -> Prop) (m : JsMap.t V) (n : JsMap.t W)
    : Prop :=
  Forall2 (fun e1 e2 => fst e1 = fst e2 /\ R (snd e1) (snd e2)) m n.

(** Every record of the primary index is one [indexContent] stored under
    its own id, and the other two stores hold what it derives from it. *)
Record Coherent (b : Bot) : Prop := {
  coh_records :
    List.Forall (fun e => exists h c0 b0,
                   snd e = storedRecord h c0 b0 /\ fst e = id c0)
                (contentIndex b);
  coh_cache :
    related (fun c s => projectionOf c = Some s) (contentIndex b) (contentCache b);
  coh_metadata :
    related (fun c m => m = metadata c) (contentIndex b) (metadataStore b)
}.

(** The number of edges of a graph. *)
Definition edgeCount (g : JsMap.t (list Relationship)) : nat :=
  list_sum (map (fun e => length (snd e)) g).

(** The classifications [classifyContent] can return, tags apart. *)
Definition classificationTable : list (string * string * Q) :=
  [("unknown", "low", 0.5%Q); ("dashboard", "high", 0.9%Q);
   ("service", "high", 0.8%Q); ("metric", "medium", 0.8%Q);
   ("user", "medium", 0.7%Q); ("system", "high", 0.8%Q)].

(** The number of the eight common words found in a text. *)
Definition englishWordCount (txt : string) : nat :=
  length (List.filter (fun word => Str.includes (Str.toLowerCase txt) word)
                      englishWords).

(** A record that comes with metadata of its own under two computed keys. *)
Definition annotatedNote : ContentData :=
  {| id := "p_note"; type := "text"; title := "Note"; description := "";
     text := "restart at noon";
     metadata := <["updateFrequency" := MString "daily"]>
                 (<["wordCount" := MNumber 99]>
                 (<["data-owner" := MString "ops"]> ∅));
     relationships := []; timestamp := 4000; source := "dom";
     classification := None; searchableText := None |}.

(** * Facts about the containers *)

(** Split the disjunctions and conjunctions among the hypotheses, then
    close the goal by equational or propositional reasoning. *)
Ltac cases_of_hyps :=
  repeat match goal with
         | H : _ \/ _ |- _ => destruct H
         | H : _ /\ _ |- _ => destruct H
         | H : False |- _ => destruct H
         end;
  subst; simpl in *; try tauto; try congruence; auto.

Module JsMapFacts.
Section Facts.
Context {V W : Type}.
Implicit Types (m : JsMap.t V) (n : JsMap.t W) (k : string).

Lemma get_set_same k (v : V) m : JsMap.get k (JsMap.set k v m) = Some v.
Proof.
  induction m as [|[k' v'] r IH]; simpl.
  - now rewrite String.eqb_refl.
  - destruct (String.eqb k' k) eqn:E; simpl.
    + now rewrite String.eqb_refl.
    + now rewrite E.
Qed.

Lemma get_set_other k k' (v : V) m :
  k <> k' -> JsMap.get k' (JsMap.set k v m) = JsMap.get k' m.
Proof.
  intros Hne. induction m as [|[k0 v0] r IH]; simpl.
  - destruct (String.eqb_spec k k'); [contradiction | reflexivity].
  - destruct (String.eqb_spec k0 k) as [->|Hk]; simpl.
    + destruct (String.eqb_spec k k'); [contradiction | reflexivity].
    + destruct (String.eqb_spec k0 k'); [reflexivity | exact IH].
Qed.

(** The keys after [set] and [delete] depend on the keys alone. *)
Lemma keys_set_aligned k (v : V) (w : W) m n :
  JsMap.keys m = JsMap.keys n ->
  JsMap.keys (JsMap.set k v m) = JsMap.keys (JsMap.set k w n).
Proof.
  revert n. induction m as [|[k1 v1] r IH]; intros [|[k2 w2] s] H;
    simpl in *; try discriminate; [reflexivity|].
  injection H as -> Hr.
  destruct (String.eqb k2 k); simpl; f_equal; auto.
Qed.

Lemma keys_delete_aligned k m n :
  JsMap.keys m = JsMap.keys n ->
  JsMap.keys (JsMap.delete k m) = JsMap.keys (JsMap.delete k n).
Proof.
  revert n. induction m as [|[k1 v1] r IH]; intros [|[k2 w2] s] H;
    simpl in *; try discriminate; [reflexivity|].
  injection H as -> Hr.
  destruct (String.eqb k2 k); simpl; [|f_equal]; auto.
Qed.

Lemma keys_set_again k (v v' : V) m :
  JsMap.keys (JsMap.set k v' (JsMap.set k v m)) = JsMap.keys (JsMap.set k v m).
Proof.
  induction m as [|[k1 v1] r IH]; simpl.
  - now rewrite String.eqb_refl.
  - destruct (String.eqb k1 k) eqn:E; simpl.
    + now rewrite String.eqb_refl.
    + rewrite E. simpl. now f_equal.
Qed.

Lemma set_set k (v v' : V) m :
  JsMap.set k v' (JsMap.set k v m) = JsMap.set k v' m.
Proof.
  induction m as [|[k1 v1] r IH]; simpl.
  - now rewrite String.eqb_refl.
  - destruct (String.eqb k1 k) eqn:E; simpl.
    + now rewrite String.eqb_refl.
    + rewrite E. now f_equal.
Qed.

Lemma size_keys m : JsMap.size m = length (JsMap.keys m).
Proof. unfold JsMap.size, JsMap.keys. now rewrite length_map. Qed.

Lemma has_iff_key k m : JsMap.has k m = true <-> In k (JsMap.keys m).
Proof.
  unfold JsMap.has. induction m as [|[k1 v1] r IH]; simpl.
  - split; [discriminate | tauto].
  - destruct (String.eqb_spec k1 k) as [->|Hne].
    + split; auto.
    + rewrite IH. split; [auto | intros [?|?]; [contradiction | assumption]].
Qed.

Lemma has_aligned k m n :
  JsMap.keys m = JsMap.keys n -> JsMap.has k m = JsMap.has k n.
Proof.
  unfold JsMap.has. revert n.
  induction m as [|[k1 v1] r IH]; intros [|[k2 w2] s] H;
    simpl in *; try discriminate; [reflexivity|].
  injection H as -> Hr.
  destruct (String.eqb k2 k); [reflexivity | auto].
Qed.

Lemma has_delete_same k m : JsMap.has k (JsMap.delete k m) = false.
Proof.
  unfold JsMap.has. induction m as [|[k1 v1] r IH]; simpl; [reflexivity|].
  destruct (String.eqb k1 k) eqn:E; simpl; [exact IH|]. now rewrite E.
Qed.

Lemma has_delete_absent k k' m :
  JsMap.has k m = false -> JsMap.has k (JsMap.delete k' m) = false.
Proof.
  unfold JsMap.has. induction m as [|[k1 v1] r IH]; simpl; [reflexivity|].
  destruct (String.eqb k1 k) eqn:E; [discriminate|]. intros H.
  destruct (String.eqb k1 k'); simpl; [auto|]. rewrite E. auto.
Qed.

Lemma get_in k (v : V) m : JsMap.get k m = Some v -> In (k, v) m.
Proof.
  induction m as [|[k1 v1] r IH]; simpl; [discriminate|].
  destruct (String.eqb_spec k1 k) as [->|Hne].
  - intros [= ->]. now left.
  - intros H. right. auto.
Qed.

Lemma in_set k (v : V) m : In (k, v) (JsMap.set k v m).
Proof.
  induction m as [|[k1 v1] r IH]; simpl; [now left|].
  destruct (String.eqb k1 k); [now left | now right].
Qed.

Lemma in_set_weak k (v : V) m e :
  In e (JsMap.set k v m) -> e = (k, v) \/ In e m.
Proof.
  induction m as [|[k1 v1] r IH]; simpl.
  - intros [<-|[]]. now left.
  - destruct (String.eqb k1 k); simpl.
    + intros [<-|H]; [now left | right; now right].
    + intros [<-|H]; [right; now left|].
      destruct (IH H) as [->|H']; [now left | right; now right].
Qed.

Lemma in_delete k m e : In e (JsMap.delete k m) -> In e m /\ fst e <> k.
Proof.
  induction m as [|[k1 v1] r IH]; simpl; [tauto|].
  destruct (String.eqb_spec k1 k) as [->|Hne]; simpl.
  - intros H. destruct (IH H). split; [now right | assumption].
  - intros [<-|H]; [split; [now left | exact Hne]|].
    destruct (IH H). split; [now right | assumption].
Qed.

Lemma keys_set_in k (v : V) m k' :
  In k' (JsMap.keys (JsMap.set k v m)) <-> k' = k \/ In k' (JsMap.keys m).
Proof.
  induction m as [|[k1 v1] r IH]; simpl.
  - split; intros H; cases_of_hyps.
  - destruct (String.eqb_spec k1 k) as [->|Hne]; simpl.
    + split; intros H; cases_of_hyps.
    + rewrite IH. split; intros H; cases_of_hyps.
Qed.

Lemma NoDup_keys_set k (v : V) m :
  List.NoDup (JsMap.keys m) -> List.NoDup (JsMap.keys (JsMap.set k v m)).
Proof.
  induction m as [|[k1 v1] r IH]; simpl; intros H.
  - constructor; [intros [] | constructor].
  - inversion H as [|? ? Hnot Hr]; subst.
    destruct (String.eqb_spec k1 k) as [->|Hne]; simpl.
    + now constructor.
    + constructor; [|auto].
      intros Hin. apply keys_set_in in Hin. destruct Hin as [->|Hin]; auto.
Qed.

Lemma keys_delete_in k m k' :
  In k' (JsMap.keys (JsMap.delete k m)) <-> k' <> k /\ In k' (JsMap.keys m).
Proof.
  induction m as [|[k1 v1] r IH]; simpl.
  - tauto.
  - destruct (String.eqb_spec k1 k) as [->|Hne]; simpl.
    + rewrite IH. split; intros H; cases_of_hyps.
    + rewrite IH. split; intros H; cases_of_hyps.
Qed.

Lemma NoDup_keys_delete k m :
  List.NoDup (JsMap.keys m) -> List.NoDup (JsMap.keys (JsMap.delete k m)).
Proof.
  induction m as [|[k1 v1] r IH]; simpl; intros H; [constructor|].
  inversion H as [|? ? Hnot Hr]; subst.
  destruct (String.eqb k1 k); simpl; [auto|].
  constructor; [|auto].
  intros Hin. apply keys_delete_in in Hin. tauto.
Qed.

Lemma NoDup_keys_entry m e1 e2 :
  List.NoDup (JsMap.keys m) -> In e1 m -> In e2 m -> fst e1 = fst e2 -> e1 = e2.
Proof.
  induction m as [|[k1 v1] r IH]; simpl; intros H; [tauto|].
  inversion H as [|? ? Hnot Hr]; subst.
  intros [<-|H1] [<-|H2] Hk; auto; simpl in *.
  - exfalso. apply Hnot. rewrite Hk. now apply (in_map fst) in H2.
  - exfalso. apply Hnot. rewrite <- Hk. now apply (in_map fst) in H1.
Qed.

End Facts.
End JsMapFacts.

(** * The string and pattern primitives on sample inputs *)

Example splitWs_runs : Str.splitWs "health  check" = ["health"; "check"].
Proof. reflexivity. Qed.

Example splitWs_edges : Str.splitWs " up " = [""; "up"; ""].
Proof. reflexivity. Qed.

Example splitWs_empty : Str.splitWs "" = [""].
Proof. reflexivity. Qed.

Example join_parts : Str.join " " ["a"; ""; "b"] = "a  b".
Proof. reflexivity. Qed.

Example includes_inner : Str.includes "system health" "tem he" = true.
Proof. reflexivity. Qed.

Example countLiteral_apart : RegExp.countLiteral "aa" 0 "aaaaa" = 2.
Proof. reflexivity. Qed.

Example countLiteral_case : RegExp.countLiteral "cpu" 0 "CPU load, cpu idle" = 2.
Proof. reflexivity. Qed.

Example countLiteral_empty_pattern : RegExp.countLiteral "" 0 "abc" = 4.
Proof. reflexivity. Qed.

Example closed_group : RegExp.closed 0 false false "(a|b)" = true.
Proof. reflexivity. Qed.

Example closed_class : RegExp.closed 0 false false "[(]" = true.
Proof. reflexivity. Qed.

Example open_group : RegExp.closed 0 false false "rate(" = false.
Proof. reflexivity. Qed.

Example stray_close : RegExp.closed 0 false false "a)" = false.
Proof. reflexivity. Qed.

Example open_class : RegExp.closed 0 false false "[a" = false.
Proof. reflexivity. Qed.

(** * Facts about the operations *)

Lemma fold_left_preserves {A B : Type} (P : A -> Prop) (f : A -> B -> A) (l : list B) :
  (forall a x, P a -> P (f a x)) -> forall a, P a -> P (fold_left f l a).
Proof.
  intros Hf. induction l as [|x l IH]; simpl; auto.
Qed.

(** ** What [indexContent] leaves in each store *)

Lemma isDuplicate_sameContent c1 c2 b :
  sameContent c1 c2 -> isDuplicate c1 b = isDuplicate c2 b.
Proof.
  intros [Ht Hs]. unfold isDuplicate, sameTextSource. now rewrite Ht, Hs.
Qed.

Lemma isDuplicate_true_iff c b :
  isDuplicate c b = true <->
  exists e, In e (contentIndex b) /\ sameContent (snd e) c.
Proof.
  unfold isDuplicate. rewrite existsb_exists. unfold sameTextSource, sameContent.
  split; intros [e [Hin H]]; exists e; split; auto.
  - apply andb_true_iff in H. now rewrite <- !String.eqb_eq.
  - apply andb_true_iff. now rewrite !String.eqb_eq.
Qed.

Lemma indexContent_duplicate h c b :
  isDuplicate c b = true -> indexContent h c b = b.
Proof. intros H. unfold indexContent. now rewrite H. Qed.

Section Indexed.
Variables (h : Host) (c : ContentData) (b : Bot).
Hypothesis fresh : isDuplicate c b = false.

Lemma indexContent_contentIndex :
  contentIndex (indexContent h c b) =
  JsMap.set (id c) (storedRecord h c b) (contentIndex b).
Proof.
  unfold indexContent, optimizeForSearch, updateSearchIndex. rewrite fresh. simpl.
  destruct (modernSearch h) as [notify|]; [destruct (notify _)|]; simpl;
    apply JsMapFacts.set_set.
Qed.

Lemma indexContent_metadataStore :
  metadataStore (indexContent h c b) =
  JsMap.set (id c) (metadata (enrichedRecord h c b)) (metadataStore b).
Proof.
  unfold indexContent, optimizeForSearch, updateSearchIndex. rewrite fresh. simpl.
  destruct (modernSearch h) as [notify|]; [destruct (notify _)|]; reflexivity.
Qed.

Lemma indexContent_contentCache :
  contentCache (indexContent h c b) =
  JsMap.set (id c) (storedEntry h c b) (contentCache b).
Proof.
  unfold indexContent, optimizeForSearch, updateSearchIndex. rewrite fresh. simpl.
  destruct (modernSearch h) as [notify|]; [destruct (notify _)|]; reflexivity.
Qed.

Lemma indexContent_relationshipGraph :
  relationshipGraph (indexContent h c b) =
  fold_left (pushRelationship (id c)) (relationships c) (relationshipGraph b).
Proof.
  unfold indexContent, optimizeForSearch, updateSearchIndex. rewrite fresh. simpl.
  destruct (modernSearch h) as [notify|]; [destruct (notify _)|]; reflexivity.
Qed.

Lemma indexContent_totalContent :
  totalContent (indexingStatus (indexContent h c b)) =
  JsMap.size (contentIndex (indexContent h c b)).
Proof.
  rewrite indexContent_contentIndex.
  unfold indexContent, optimizeForSearch, updateSearchIndex. rewrite fresh. simpl.
  destruct (modernSearch h) as [notify|]; [destruct (notify _)|]; simpl;
    rewrite ?JsMapFacts.set_set, !JsMapFacts.size_keys;
    apply f_equal, JsMapFacts.keys_set_aligned; reflexivity.
Qed.

End Indexed.

Lemma storedRecord_sameContent h c b : sameContent (storedRecord h c b) c.
Proof. split; reflexivity. Qed.

(** ** What eviction leaves in each store *)

Lemma evict_relationshipGraph k b : relationshipGraph (evict k b) = relationshipGraph b.
Proof. reflexivity. Qed.

Lemma evictExpired_relationshipGraph now acc e :
  relationshipGraph (evictExpired now acc e) = relationshipGraph acc.
Proof. unfold evictExpired. now destruct (expired now (snd e)). Qed.

Lemma evictExpired_indexingStatus now acc e :
  indexingStatus (evictExpired now acc e) = indexingStatus acc.
Proof. unfold evictExpired. now destruct (expired now (snd e)). Qed.

Lemma fold_evictExpired_relationshipGraph now entries acc :
  relationshipGraph (fold_left (evictExpired now) entries acc) = relationshipGraph acc.
Proof.
  revert acc. induction entries as [|e r IH]; intros acc; simpl; [reflexivity|].
  rewrite IH. apply evictExpired_relationshipGraph.
Qed.

Lemma fold_evictExpired_indexingStatus now entries acc :
  indexingStatus (fold_left (evictExpired now) entries acc) = indexingStatus acc.
Proof.
  revert acc. induction entries as [|e r IH]; intros acc; simpl; [reflexivity|].
  rewrite IH. apply evictExpired_indexingStatus.
Qed.

Lemma evict_absent k b : absentEverywhere k (evict k b).
Proof. repeat split; apply JsMapFacts.has_delete_same. Qed.

Lemma evictExpired_keeps_absent now k acc e :
  absentEverywhere k acc -> absentEverywhere k (evictExpired now acc e).
Proof.
  intros (H1 & H2 & H3). unfold evictExpired.
  destruct (expired now (snd e)); [|repeat split; assumption].
  repeat split; simpl; now apply JsMapFacts.has_delete_absent.
Qed.

Lemma fold_evictExpired_absent now k c entries acc :
  In (k, c) entries -> expired now c = true ->
  absentEverywhere k (fold_left (evictExpired now) entries acc).
Proof.
  intros Hin Hexp. revert acc.
  induction entries as [|e r IH]; intros acc; simpl; [destruct Hin|].
  destruct Hin as [->|Hin]; [|now apply IH].
  apply fold_left_preserves.
  - intros a x. apply evictExpired_keeps_absent.
  - unfold evictExpired. simpl. rewrite Hexp. apply evict_absent.
Qed.

(** ** The invariant of the reachable states *)

Lemma Consistent_initial : Consistent initial.
Proof.
  split.
  - split; reflexivity.
  - constructor.
  - intros e1 e2 [].
Qed.

Lemma Consistent_indexContent h c b :
  Consistent b -> Consistent (indexContent h c b).
Proof.
  intros [[Hcache Hmeta] Hkeys Hdedup].
  destruct (isDuplicate c b) eqn:Hdup.
  { rewrite indexContent_duplicate by assumption. now split. }
  split.
  - split.
    + rewrite indexContent_contentCache, indexContent_contentIndex by assumption.
      now apply JsMapFacts.keys_set_aligned.
    + rewrite indexContent_metadataStore, indexContent_contentIndex by assumption.
      now apply JsMapFacts.keys_set_aligned.
  - rewrite indexContent_contentIndex by assumption.
    now apply JsMapFacts.NoDup_keys_set.
  - intros e1 e2. rewrite indexContent_contentIndex by assumption.
    intros H1 H2 Hsame.
    assert (Hfresh : forall e, In e (contentIndex b) ->
                               ~ sameContent (snd e) c).
    { intros e Hin Hs.
      assert (isDuplicate c b = true) by (apply isDuplicate_true_iff; eauto).
      congruence. }
    apply JsMapFacts.in_set_weak in H1, H2.
    destruct H1 as [->|H1], H2 as [->|H2]; auto.
    + exfalso. apply (Hfresh e2 H2).
      destruct Hsame as [Ht Hs]. split; simpl in *; congruence.
    + exfalso. apply (Hfresh e1 H1).
      destruct Hsame as [Ht Hs]. split; simpl in *; congruence.
Qed.

Lemma Consistent_evictExpired now acc e :
  Consistent acc -> Consistent (evictExpired now acc e).
Proof.
  intros [[Hcache Hmeta] Hkeys Hdedup]. unfold evictExpired.
  destruct (expired now (snd e)); [|now split].
  split; simpl.
  - split; simpl; now apply JsMapFacts.keys_delete_aligned.
  - now apply JsMapFacts.NoDup_keys_delete.
  - intros e1 e2 H1 H2. simpl in *.
    apply JsMapFacts.in_delete in H1, H2. apply Hdedup; tauto.
Qed.

Lemma Consistent_cleanupOldContent now b :
  Consistent b -> Consistent (cleanupOldContent now b).
Proof.
  unfold cleanupOldContent. apply fold_left_preserves.
  intros a x. apply Consistent_evictExpired.
Qed.

Lemma Consistent_indexAll found b : Consistent b -> Consistent (indexAll found b).
Proof.
  unfold indexAll. apply fold_left_preserves.
  intros a x. apply Consistent_indexContent.
Qed.

Lemma Consistent_updateRelationshipGraph c b :
  Consistent b -> Consistent (updateRelationshipGraph c b).
Proof. intros [H1 H2 H3]. now split. Qed.

Lemma Consistent_updateContentRelationships b :
  Consistent b -> Consistent (updateContentRelationships b).
Proof.
  unfold updateContentRelationships. apply fold_left_preserves.
  intros a x. apply Consistent_updateRelationshipGraph.
Qed.

Lemma Consistent_step o b : Consistent b -> Consistent (step o b).
Proof.
  intros H. destruct o as [h c|now|found now|now found|]; simpl.
  - now apply Consistent_indexContent.
  - now apply Consistent_cleanupOldContent.
  - now apply Consistent_cleanupOldContent, Consistent_indexAll.
  - apply Consistent_updateContentRelationships, Consistent_indexAll.
    destruct H as [H1 H2 H3]. now split.
  - split.
    + split; reflexivity.
    + constructor.
    + intros e1 e2 [].
Qed.

Lemma Reachable_Consistent b : Reachable b -> Consistent b.
Proof.
  induction 1 as [|o b _ IH]; [apply Consistent_initial | now apply Consistent_step].
Qed.

Lemma Reachable_indexedOnce : Reachable indexedOnce.
Proof. apply (reach_step (OIndex (quietHost 1000) healthCard)), reach_initial. Qed.

Lemma Reachable_evictedLater : Reachable evictedLater.
Proof. apply (reach_step (OCleanup (1000 + 2 * oneDay))), Reachable_indexedOnce. Qed.

Lemma Reachable_rediscovered : Reachable rediscovered.
Proof.
  apply (reach_step (OFullDiscovery 5000 [(quietHost 5000, healthCardAt 5000)])),
    Reachable_indexedOnce.
Qed.

(** * Deduplication *)

Lemma isDuplicate_after_indexContent h c b :
  isDuplicate c (indexContent h c b) = true.
Proof.
  destruct (isDuplicate c b) eqn:Hdup.
  - now rewrite indexContent_duplicate.
  - apply isDuplicate_true_iff.
    exists (id c, storedRecord h c b). split.
    + rewrite indexContent_contentIndex by assumption. apply JsMapFacts.in_set.
    + apply storedRecord_sameContent.
Qed.

(** C1. Of two ingestions of records with the same (text, source), in
    either order, the second is dropped and changes no store; a reachable
    primary index never holds two entries with the same (text, source);
    and ingesting a record twice into a new bot leaves totalContent at 1. *)
Theorem duplicate_ingestion_dropped (h1 h2 : Host) (c1 c2 : ContentData) (b : Bot) :
  sameContent c1 c2 ->
  indexContent h2 c2 (indexContent h1 c1 b) = indexContent h1 c1 b /\
  (Reachable b -> deduplicated (indexContent h2 c2 (indexContent h1 c1 b))) /\
  totalContent (indexingStatus (indexContent h2 c2 (indexContent h1 c1 initial))) = 1.
Proof.
  intros Hsame.
  assert (Hdrop : forall b', indexContent h2 c2 (indexContent h1 c1 b')
                             = indexContent h1 c1 b').
  { intros b'. apply indexContent_duplicate.
    rewrite <- (isDuplicate_sameContent c1 c2) by assumption.
    apply isDuplicate_after_indexContent. }
  split; [apply Hdrop|]. split.
  - intros Hreach. rewrite Hdrop.
    apply cons_dedup, Consistent_indexContent, Reachable_Consistent, Hreach.
  - rewrite Hdrop, indexContent_totalContent, indexContent_contentIndex;
      reflexivity.
Qed.

Lemma duplicate_ingestion_dropped_witness :
  sameContent healthCard healthCard /\
  indexContent (quietHost 2000) healthCard indexedOnce = indexedOnce /\
  totalContent (indexingStatus
    (indexContent (quietHost 2000) healthCard indexedOnce)) = 1.
Proof.
  assert (Hs : sameContent healthCard healthCard) by (split; reflexivity).
  split; [exact Hs|].
  destruct (duplicate_ingestion_dropped (quietHost 1000) (quietHost 2000)
              healthCard healthCard initial Hs) as (H1 & _ & H3).
  split; [exact H1 | exact H3].
Defined.

(** * Projection totality and eviction *)

(** C2. In every reachable state the search projection holds an id exactly
    when the primary index does, and so does the metadata store; an
    eviction pass leaves every expired record of the index in none of the
    three stores, and leaves the three stores on the same ids. *)
Theorem projection_total_and_eviction_joint (b : Bot) :
  Reachable b ->
  (forall k, JsMap.has k (contentCache b) = true <->
             JsMap.has k (contentIndex b) = true) /\
  (forall k, JsMap.has k (metadataStore b) = true <->
             JsMap.has k (contentIndex b) = true) /\
  (forall now k c, In (k, c) (contentIndex b) -> expired now c = true ->
                   absentEverywhere k (cleanupOldContent now b)) /\
  (forall now, storesAligned (cleanupOldContent now b)).
Proof.
  intros Hreach.
  destruct (Reachable_Consistent b Hreach) as [[Hcache Hmeta] _ _].
  repeat split.
  - now rewrite (JsMapFacts.has_aligned k _ _ Hcache).
  - now rewrite (JsMapFacts.has_aligned k _ _ Hcache).
  - now rewrite (JsMapFacts.has_aligned k _ _ Hmeta).
  - now rewrite (JsMapFacts.has_aligned k _ _ Hmeta).
  - now apply (fold_evictExpired_absent now k c).
  - now apply (fold_evictExpired_absent now k c).
  - now apply (fold_evictExpired_absent now k c).
  - apply (Reachable_Consistent (step (OCleanup now) b)). now constructor.
  - apply (Reachable_Consistent (step (OCleanup now) b)). now constructor.
Qed.

Lemma projection_total_and_eviction_joint_witness :
  Reachable indexedOnce /\
  JsMap.has "div_card_health" (contentCache indexedOnce) = true /\
  absentEverywhere "div_card_health" evictedLater.
Proof.
  destruct (projection_total_and_eviction_joint indexedOnce Reachable_indexedOnce)
    as (Hcache & _ & Hevict & _).
  split; [exact Reachable_indexedOnce|]. split.
  - apply Hcache. reflexivity.
  - apply (Hevict (1000 + 2 * oneDay)%Z "div_card_health"
                  (storedRecord (quietHost 1000) healthCard initial)).
    + left. reflexivity.
    + reflexivity.
Defined.

(** * Classification *)

(** C3. A record whose lowercased text and title contain both "dashboard"
    and "system" is classified "system": the system rule is the last one
    applied and overwrites the category the dashboard rule set. *)
Theorem classify_dashboard_and_system (c : ContentData) :
  Str.includes (classifyText c) "dashboard" = true ->
  Str.includes (classifyText c) "system" = true ->
  category (classifyContent c) = "system" /\
  category (classifyContent c) <> "dashboard".
Proof.
  intros _ Hsystem. unfold classifyContent. rewrite Hsystem. simpl.
  split; [reflexivity | discriminate].
Qed.

Lemma classify_dashboard_and_system_witness :
  Str.includes (classifyText healthCard) "dashboard" = true /\
  Str.includes (classifyText healthCard) "system" = true /\
  category (classifyContent healthCard) = "system".
Proof.
  split; [reflexivity|]. split; [reflexivity|].
  apply (classify_dashboard_and_system healthCard); reflexivity.
Defined.

(** * The totalContent counter *)

Lemma updateIndexingStatus_contentIndex status now b :
  contentIndex (updateIndexingStatus status now b) = contentIndex b.
Proof. reflexivity. Qed.

(** C4, the part the code does not have: after the reset of a discovery
    pass that finds only known content, totalContent is 0 while the
    primary index still holds its record. *)
Lemma totalContent_stale_after_reset :
  Reachable rediscovered /\
  totalContent (indexingStatus rediscovered) = 0 /\
  JsMap.size (contentIndex rediscovered) = 1 /\
  totalContent (indexingStatus rediscovered) <> JsMap.size (contentIndex rediscovered).
Proof.
  split; [exact Reachable_rediscovered|].
  split; [reflexivity|]. split; [reflexivity|]. discriminate.
Qed.

(** C4, as the code has it: every status update sets totalContent to the
    number of records in the primary index, and so does every ingestion
    that is not dropped as a duplicate. *)
Theorem totalContent_after_status_update :
  (forall status now b,
     totalContent (indexingStatus (updateIndexingStatus status now b)) =
     JsMap.size (contentIndex (updateIndexingStatus status now b))) /\
  (forall h c b, isDuplicate c b = false ->
     totalContent (indexingStatus (indexContent h c b)) =
     JsMap.size (contentIndex (indexContent h c b))).
Proof.
  split.
  - reflexivity.
  - intros h c b. apply indexContent_totalContent.
Qed.

Lemma totalContent_after_status_update_witness :
  isDuplicate healthCard initial = false /\
  totalContent (indexingStatus indexedOnce) = JsMap.size (contentIndex indexedOnce).
Proof.
  split; [reflexivity|].
  apply (proj2 totalContent_after_status_update (quietHost 1000) healthCard initial).
  reflexivity.
Defined.

(** * The updateFrequency bucket *)

Lemma hours_below_1 (age : Z) :
  Qlt_bool (inject_Z age / inject_Z (1000 * 60 * 60)) 1 = (age <? 3600000)%Z.
Proof.
  unfold Qlt_bool, Qle_bool, Qdiv, Qmult, Qinv, inject_Z. simpl.
  rewrite <- Z.ltb_antisym. replace (age * 1 * 1)%Z with age by lia.
  reflexivity.
Qed.

Lemma hours_below_24 (age : Z) :
  Qlt_bool (inject_Z age / inject_Z (1000 * 60 * 60)) 24 = (age <? 86400000)%Z.
Proof.
  unfold Qlt_bool, Qle_bool, Qdiv, Qmult, Qinv, inject_Z. simpl.
  rewrite <- Z.ltb_antisym. replace (age * 1 * 1)%Z with age by lia.
  reflexivity.
Qed.

Lemma calculateUpdateFrequency_buckets now k b :
  calculateUpdateFrequency now k b =
  match JsMap.get k (contentIndex b) with
  | None => "unknown"
  | Some previous => bucketByAge (now - timestamp previous)
  end.
Proof.
  unfold calculateUpdateFrequency, bucketByAge.
  destruct (JsMap.get k (contentIndex b)) as [previous|]; [|reflexivity].
  now rewrite hours_below_1, hours_below_24.
Qed.

Lemma enrichMetadata_updateFrequency now c b :
  enrichMetadata now c b !! "updateFrequency" =
  Some (MString (calculateUpdateFrequency now (id c) b)).
Proof. unfold enrichMetadata. apply lookup_insert_eq. Qed.

(** C5, the part the code does not have: a record captured and indexed at
    the same instant, so of age 0, gets updateFrequency "unknown", not the
    "high" of an age under one hour. *)
Lemma updateFrequency_of_new_record_unknown :
  let recorded :=
    JsMap.get "div_card_health" (metadataStore indexedOnce)
      ≫= (fun m => m !! "updateFrequency") in
  recorded = Some (MString "unknown") /\
  bucketByAge (1000 - timestamp healthCard) = "high" /\
  recorded <> Some (MString (bucketByAge (1000 - timestamp healthCard))).
Proof.
  split; [reflexivity|]. split; [reflexivity|]. discriminate.
Qed.

(** C5, as the code has it: the updateFrequency that enrichMetadata
    computes during indexing, and that the metadata store then holds, is
    "unknown" when the primary index has no record under the id yet, and
    otherwise buckets the age of the record already stored under that id:
    "high" under 1 hour, "medium" under 24 hours, "low" otherwise. *)
Theorem updateFrequency_buckets_previous_capture (h : Host) (c : ContentData) (b : Bot) :
  isDuplicate c b = false ->
  exists m,
    JsMap.get (id c) (metadataStore (indexContent h c b)) = Some m /\
    m !! "updateFrequency" =
    Some (MString
      match JsMap.get (id c) (contentIndex b) with
      | None => "unknown"
      | Some previous => bucketByAge (clockEnrich h - timestamp previous)
      end).
Proof.
  intros Hfresh. eexists. split.
  - rewrite indexContent_metadataStore by assumption.
    apply JsMapFacts.get_set_same.
  - unfold enrichedRecord. simpl.
    erewrite lookup_union_Some_l; [reflexivity|].
    rewrite enrichMetadata_updateFrequency, calculateUpdateFrequency_buckets.
    reflexivity.
Qed.

Lemma updateFrequency_buckets_previous_capture_witness :
  isDuplicate healthCard initial = false /\
  exists m,
    JsMap.get "div_card_health" (metadataStore indexedOnce) = Some m /\
    m !! "updateFrequency" = Some (MString "unknown").
Proof.
  split; [reflexivity|].
  apply (updateFrequency_buckets_previous_capture (quietHost 1000) healthCard initial).
  reflexivity.
Defined.

(** * Relationship statistics and the graph under eviction *)

Lemma cleanupOldContent_relationshipGraph now b :
  relationshipGraph (cleanupOldContent now b) = relationshipGraph b.
Proof. apply fold_evictExpired_relationshipGraph. Qed.

(** C7, where the code departs from it: the average is the total number
    of edges divided by the number of records of the primary index, but
    with no record the quotient by zero is what is returned, NaN on a new
    bot and Infinity once eviction has emptied the index and left an edge,
    not 0. *)
Theorem average_over_empty_index :
  (forall b,
     averageRelationshipsPerContent (getRelationshipStats b) =
     jsDivide (totalRelationships (getRelationshipStats b))
              (JsMap.size (contentIndex b))) /\
  averageRelationshipsPerContent (getRelationshipStats initial) = NaN /\
  totalRelationships (getRelationshipStats evictedLater) = 1 /\
  JsMap.size (contentIndex evictedLater) = 0 /\
  averageRelationshipsPerContent (getRelationshipStats evictedLater) = Infinity.
Proof. repeat split; reflexivity. Qed.

(** C9. An eviction pass returns the relationship graph it was given, and
    the graph can then hold the edges of an id the primary index lost. *)
Theorem cleanup_keeps_relationshipGraph :
  (forall now b, relationshipGraph (cleanupOldContent now b) = relationshipGraph b) /\
  (Reachable evictedLater /\
   JsMap.get "div_card_health" (relationshipGraph evictedLater) =
     Some [ {| rel_type := "parent"; rel_target := "body__" |} ] /\
   absentEverywhere "div_card_health" evictedLater).
Proof.
  split; [apply cleanupOldContent_relationshipGraph|].
  split; [exact Reachable_evictedLater|].
  split; [reflexivity|]. repeat split; reflexivity.
Qed.

(** * Search *)

Lemma Reachable_formulaIndexed : Reachable formulaIndexed.
Proof. apply (reach_step (OIndex (quietHost 2000) formulaCell)), reach_initial. Qed.

(** ** Relevance of a query of literal words *)

Lemma matchCount_literal host word :
  RegExp.isLiteral word = true ->
  RegExp.matchCount host word = Some (RegExp.countLiteral word 0).
Proof. intros H. unfold RegExp.matchCount. now rewrite H. Qed.

Lemma relevance_fold_literal host txt words score :
  forallb RegExp.isLiteral words = true ->
  fold_left
    (fun acc word =>
       let! score := acc in
       match RegExp.matchCount host word with
       | Some count => Returns (score + count txt)
       | None => Throws
       end)
    words (Returns score) =
  Returns (score + list_sum (map (fun word => RegExp.countLiteral word 0 txt) words)).
Proof.
  revert score. induction words as [|w ws IH]; intros score Hlit; simpl.
  - f_equal. lia.
  - apply andb_true_iff in Hlit. destruct Hlit as [Hw Hws].
    rewrite (matchCount_literal host w Hw), IH by assumption.
    f_equal. lia.
Qed.

Lemma calculateRelevance_literal host queryLower txt :
  literalQuery queryLower = true ->
  calculateRelevance host queryLower txt = Returns (occurrenceSum queryLower txt).
Proof.
  intros H. unfold calculateRelevance.
  now rewrite relevance_fold_literal.
Qed.

Lemma collectResults_literal host queryLower f entries :
  literalQuery queryLower = true ->
  collectResults host queryLower f entries =
  Returns (map (scored queryLower)
               (List.filter (eligibleb f queryLower) (JsMap.values entries))).
Proof.
  intros Hlit. induction entries as [|[k c] rest IH]; simpl; [reflexivity|].
  unfold eligibleb at 1.
  destruct (passesFilters f c && Str.includes (searchableTextOf c) queryLower).
  - rewrite calculateRelevance_literal, IH by assumption. reflexivity.
  - exact IH.
Qed.

(** ** The sort *)

Lemma insertByRelevance_perm x l : Permutation (insertByRelevance x l) (x :: l).
Proof.
  induction l as [|y r IH]; simpl; [reflexivity|].
  destruct (relevance x <? relevance y); [|reflexivity].
  rewrite IH. apply perm_swap.
Qed.

Lemma sortByRelevance_perm l : Permutation (sortByRelevance l) l.
Proof.
  induction l as [|x l IH]; simpl; [reflexivity|].
  rewrite insertByRelevance_perm. now constructor.
Qed.



(** ** Filters *)



(** ** searchContent on a query of literal words *)

Lemma searchContent_literal host query f b :
  literalQuery (Str.toLowerCase query) = true ->
  searchContent host query f b =
  Returns (sortByRelevance
             (map (scored (Str.toLowerCase query))
                  (List.filter (eligibleb f (Str.toLowerCase query))
                               (JsMap.values (contentIndex b))))).
Proof.
  intros Hlit. unfold searchContent.
  now rewrite collectResults_literal.
Qed.

Lemma content_of_scored queryLower l : map content (map (scored queryLower) l) = l.
Proof.
  induction l as [|c l IH]; simpl; [reflexivity | now rewrite IH].
Qed.

Lemma filter_none {A : Type} (p : A -> bool) (l : list A) :
  (forall x, In x l -> p x = false) -> List.filter p l = [].
Proof.
  induction l as [|x l IH]; simpl; intros H; [reflexivity|].
  rewrite (H x) by now left. apply IH. intros y Hy. apply H. now right.
Qed.

Lemma collectResults_none host queryLower f (entries : JsMap.t ContentData) :
  (forall e, In e entries -> eligibleb f queryLower (snd e) = false) ->
  collectResults host queryLower f entries = Returns [].
Proof.
  induction entries as [|[k c] rest IH]; simpl; intros H; [reflexivity|].
  pose proof (H (k, c) (or_introl eq_refl)) as Hc. unfold eligibleb in Hc.
  simpl in Hc. rewrite Hc. apply IH. intros e He. apply H. now right.
Qed.







(** C8. The query "(" throws on a bot whose one record contains "(",
    whatever the engine of the host does with well-formed patterns. *)
Theorem searchContent_can_throw :
  exists (query : string) (b : Bot),
    Reachable b /\
    (exists c, In c (JsMap.values (contentIndex b)) /\
               Str.includes (searchableTextOf c) (Str.toLowerCase query) = true) /\
    RegExp.isLiteral query = false /\
    forall host, searchContent host query noFilters b = Throws.
Proof.
  exists "(", formulaIndexed.
  split; [exact Reachable_formulaIndexed|]. split.
  - exists (storedRecord (quietHost 2000) formulaCell initial).
    split; [left|]; reflexivity.
  - split; [reflexivity|]. intros host. reflexivity.
Qed.





(** * Further properties: enrichment and classification *)

(** X1. The quality score of every record lies between 0.5 and 1.0. *)
Theorem calculateQualityScore_bounds (c : ContentData) :
  (0.5 <= calculateQualityScore c)%Q /\ (calculateQualityScore c <= 1)%Q.
Proof.
  unfold calculateQualityScore.
  destruct (Str.truthy (title c) && (5 <? String.length (title c)));
    destruct (Str.truthy (description c) && (10 <? String.length (description c)));
    destruct (Str.truthy (text c) && (20 <? String.length (text c)));
    vm_compute; split; discriminate.
Qed.

Lemma englishWordCount_le txt : englishWordCount txt <= 8.
Proof.
  unfold englishWordCount.
  etransitivity; [apply List.filter_length_le | reflexivity].
Qed.

(** X2. A text is detected as english exactly when at least three of the
    eight listed words occur in it as substrings. *)
Theorem detectLanguage_threshold (txt : string) :
  (detectLanguage txt = "english" <-> 3 <= englishWordCount txt) /\
  (detectLanguage txt = "unknown" <-> englishWordCount txt < 3).
Proof.
  pose proof (englishWordCount_le txt) as Hle.
  unfold detectLanguage. fold (englishWordCount txt).
  destruct (englishWordCount txt) as [|[|[|[|[|[|[|[|[|n]]]]]]]]];
    try lia; vm_compute; split; split; intros H; try discriminate; try lia;
    reflexivity.
Qed.

Lemma splitWsFrom_nonempty cur inSep s : 1 <= length (Str.splitWsFrom cur inSep s).
Proof.
  revert cur inSep. induction s as [|a r IH]; intros cur inSep; simpl; [lia|].
  destruct (Str.isSpace a); [destruct inSep|]; simpl; auto; lia.
Qed.

(** X3. The word count that enrichment records is at least 1, also for an
    empty text: it is the number of pieces between runs of whitespace. *)
Theorem wordCount_at_least_one (now : Z) (c : ContentData) (b : Bot) :
  exists n, 1 <= n /\
    enrichMetadata now c b !! "wordCount" = Some (MNumber (numOfNat n)) /\
    n = length (Str.splitWs (text c)).
Proof.
  exists (length (Str.splitWs (text c))). split; [apply splitWsFrom_nonempty|].
  split; reflexivity.
Qed.

(** X4. The category, priority and confidence of a classification are one
    of six fixed triples, and a record classified unknown carries no tag
    other than error, status and health. *)
Theorem classifyContent_table (c : ContentData) :
  In (category (classifyContent c), priority (classifyContent c),
      confidence (classifyContent c)) classificationTable /\
  (category (classifyContent c) = "unknown" ->
   forall t, In t (tags (classifyContent c)) -> In t ["error"; "status"; "health"]).
Proof.
  unfold classifyContent.
  destruct (Str.includes (classifyText c) "dashboard" || String.eqb (type c) "dashboard")
    eqn:Hd;
  destruct (Str.includes (classifyText c) "service" || String.eqb (type c) "service")
    eqn:Hs;
  destruct (Str.includes (classifyText c) "metric" || Str.includes (classifyText c) "performance"
            || String.eqb (type c) "metric") eqn:Hm;
  destruct (Str.includes (classifyText c) "user" || Str.includes (classifyText c) "profile"
            || String.eqb (type c) "user") eqn:Hu;
  destruct (Str.includes (classifyText c) "system" || Str.includes (classifyText c) "config"
            || String.eqb (type c) "system") eqn:Hy;
  cbn [category priority confidence tags withRule];
  (split; [simpl; tauto|]); try (intros H; discriminate H).
  intros _ t.
  repeat match goal with
         | H : (_ || _) = false |- _ => apply orb_false_elim in H; destruct H
         end.
  cbn [List.filter commonTags].
  repeat match goal with
         | H : Str.includes _ _ = false |- _ => rewrite H; clear H
         end.
  destruct (Str.includes (classifyText c) "error");
  destruct (Str.includes (classifyText c) "status");
  destruct (Str.includes (classifyText c) "health"); simpl; tauto.
Qed.

(** * Further properties: element identity *)

Module StrFacts.

Lemma length_append s1 s2 :
  String.length (s1 +:+ s2) = String.length s1 + String.length s2.
Proof. induction s1 as [|a r IH]; simpl; [reflexivity | now rewrite IH]. Qed.

Lemma length_toLowerCase s : String.length (Str.toLowerCase s) = String.length s.
Proof. induction s as [|a r IH]; simpl; [reflexivity | now rewrite IH]. Qed.

Lemma toLowerCase_append s1 s2 :
  Str.toLowerCase (s1 +:+ s2) = Str.toLowerCase s1 +:+ Str.toLowerCase s2.
Proof. induction s1 as [|a r IH]; simpl; [reflexivity | now rewrite IH]. Qed.

Lemma append_assoc s1 s2 s3 : (s1 +:+ s2) +:+ s3 = s1 +:+ (s2 +:+ s3).
Proof.
  induction s1 as [|a r IH]; [reflexivity|].
  change (String a ((r +:+ s2) +:+ s3) = String a (r +:+ s2 +:+ s3)).
  now f_equal.
Qed.

Lemma length_sanitize s : String.length (Dom.sanitize s) = String.length s.
Proof. induction s as [|a r IH]; simpl; [reflexivity | now rewrite IH]. Qed.

Lemma sanitize_wordChars s :
  forallb Dom.isWordChar (list_ascii_of_string (Dom.sanitize s)) = true.
Proof.
  induction s as [|a r IH]; simpl; [reflexivity|].
  rewrite IH, andb_true_r.
  destruct (Dom.isWordChar a) eqn:E; [exact E | reflexivity].
Qed.

Lemma length_firstChars n s :
  String.length (Dom.firstChars n s) = Nat.min n (String.length s).
Proof.
  revert s. induction n as [|n IH]; intros [|a r]; simpl; auto.
Qed.

Lemma firstChars_append n s suffix :
  n <= String.length s -> Dom.firstChars n (s +:+ suffix) = Dom.firstChars n s.
Proof.
  revert s. induction n as [|n IH]; intros s H; [reflexivity|].
  destruct s as [|a r]; simpl in H; [lia|].
  change (String a (Dom.firstChars n (r +:+ suffix)) = String a (Dom.firstChars n r)).
  f_equal. apply IH. lia.
Qed.

End StrFacts.

(** X5. A generated id consists of letters, digits and underscores only,
    and its length is that of the tag, the id and the class plus at most
    50 characters of text plus the three separators. *)
Theorem generateContentId_shape (e : ElementView) :
  forallb Dom.isWordChar (list_ascii_of_string (generateContentId e)) = true /\
  String.length (generateContentId e) =
    String.length (el_tagName e) + String.length (el_id e) +
    String.length (el_className e) +
    Nat.min 50 (String.length (el_textContent e)) + 3.
Proof.
  unfold generateContentId. split; [apply StrFacts.sanitize_wordChars|].
  rewrite StrFacts.length_sanitize, !StrFacts.length_append,
    StrFacts.length_toLowerCase, StrFacts.length_firstChars.
  simpl. lia.
Qed.

(** X6. Text beyond the first 50 characters does not enter the id: an
    element whose text is extended keeps its id, and two AJAX responses
    whose URLs share their first 50 characters are given the same id. *)
Theorem generateContentId_ignores_tail (tag eid cls txt href suffix : string) :
  50 <= String.length txt ->
  generateContentId {| el_tagName := tag; el_id := eid; el_className := cls;
                       el_textContent := txt +:+ suffix; el_href := href |} =
  generateContentId {| el_tagName := tag; el_id := eid; el_className := cls;
                       el_textContent := txt; el_href := href |} /\
  forall now1 now2 payload1 payload2,
    id (ajaxContent now1 (txt +:+ suffix) payload1) = id (ajaxContent now2 txt payload2).
Proof.
  intros Hlen. unfold ajaxContent, generateContentId.
  cbn [id el_tagName el_id el_className el_textContent].
  rewrite StrFacts.firstChars_append by assumption. split; reflexivity.
Qed.

Lemma generateContentId_ignores_tail_witness :
  50 <= String.length "https://api.example.org/v1/metrics/cpu/usage/by-host" /\
  id (ajaxContent 10 "https://api.example.org/v1/metrics/cpu/usage/by-host?h=a" "1") =
  id (ajaxContent 20 "https://api.example.org/v1/metrics/cpu/usage/by-host" "2").
Proof.
  split; [vm_compute; lia|].
  apply (generateContentId_ignores_tail "" "" ""
           "https://api.example.org/v1/metrics/cpu/usage/by-host" "" "?h=a").
  vm_compute. lia.
Defined.

(** The detected type is one of twelve fixed names, never empty and
    never "document"; "link" is only given to an [a] element with an href,
    and a dashboard-specific type only to an element whose class, in lower
    case, contains that type's name. *)
Theorem detectContentType_range (e : ElementView) :
  In (detectContentType e)
     ["image"; "video"; "audio"; "code"; "data"; "link"; "dashboard"; "service";
      "metric"; "user"; "system"; "text"] /\
  (detectContentType e = "link" ->
   Str.toLowerCase (el_tagName e) = "a" /\ el_href e <> EmptyString) /\
  (In (detectContentType e) ["dashboard"; "service"; "metric"; "user"; "system"] ->
   Str.includes (Str.toLowerCase (el_className e)) (detectContentType e) = true).
Proof.
  unfold detectContentType.
  destruct (String.eqb (Str.toLowerCase (el_tagName e)) "img"
            || Str.includes (Str.toLowerCase (el_className e)) "image");
    [simpl; split; [tauto|]; split; [discriminate|];
     intros H; simpl in H; cases_of_hyps; discriminate|].
  destruct (String.eqb (Str.toLowerCase (el_tagName e)) "video");
    [simpl; split; [tauto|]; split; [discriminate|];
     intros H; simpl in H; cases_of_hyps; discriminate|].
  destruct (String.eqb (Str.toLowerCase (el_tagName e)) "audio");
    [simpl; split; [tauto|]; split; [discriminate|];
     intros H; simpl in H; cases_of_hyps; discriminate|].
  destruct (String.eqb (Str.toLowerCase (el_tagName e)) "code"
            || Str.includes (Str.toLowerCase (el_className e)) "code");
    [simpl; split; [tauto|]; split; [discriminate|];
     intros H; simpl in H; cases_of_hyps; discriminate|].
  destruct (String.eqb (Str.toLowerCase (el_tagName e)) "table"
            || Str.includes (Str.toLowerCase (el_className e)) "table");
    [simpl; split; [tauto|]; split; [discriminate|];
     intros H; simpl in H; cases_of_hyps; discriminate|].
  destruct (String.eqb_spec (Str.toLowerCase (el_tagName e)) "a") as [Ha|Ha];
    [destruct (el_href e) as [|x r] eqn:Hh|]; simpl.
  2:{ split; [tauto|]. split; [intros _; split; [assumption | discriminate]|].
      intros H; cases_of_hyps; discriminate. }
  all: destruct (Str.includes (Str.toLowerCase (el_className e)) "dashboard") eqn:H1;
    [|destruct (Str.includes (Str.toLowerCase (el_className e)) "service") eqn:H2;
      [|destruct (Str.includes (Str.toLowerCase (el_className e)) "metric") eqn:H3;
        [|destruct (Str.includes (Str.toLowerCase (el_className e)) "user") eqn:H4;
          [|destruct (Str.includes (Str.toLowerCase (el_className e)) "system") eqn:H5]]]];
    (split; [simpl; tauto|]); (split; [discriminate|]);
    intros H; try assumption; simpl in H; cases_of_hyps; discriminate.
Qed.

(** * Further properties: distributions *)

Lemma increment_lookup_same d k :
  increment d k !! k = Some (default 0 (d !! k) + 1).
Proof. unfold increment. apply lookup_insert_eq. Qed.

Lemma increment_lookup_other d k k' :
  k <> k' -> increment d k !! k' = d !! k'.
Proof. intros H. unfold increment. now apply lookup_insert_ne. Qed.

Lemma fold_increment_lookup {A : Type} (key : A -> string) (l : list A)
    (d : gmap string nat) (k : string) :
  fold_left (fun acc x => increment acc (key x)) l d !! k =
  match countKey key k l with
  | O => d !! k
  | S n => Some (default 0 (d !! k) + S n)
  end.
Proof.
  unfold countKey. revert d. induction l as [|x l IH]; intros d; simpl; [reflexivity|].
  rewrite IH. destruct (String.eqb_spec (key x) k) as [->|Hne]; simpl.
  - rewrite increment_lookup_same. simpl.
    destruct (length (List.filter (fun y => String.eqb (key y) k) l));
      f_equal; lia.
  - now rewrite increment_lookup_other.
Qed.

Lemma sumCounts_insert_fresh (d : gmap string nat) k v :
  d !! k = None -> sumCounts (<[k := v]> d) = v + sumCounts d.
Proof.
  intros H. unfold sumCounts. apply map_fold_insert_L; [|exact H].
  intros. lia.
Qed.

Lemma sumCounts_increment d k : sumCounts (increment d k) = S (sumCounts d).
Proof.
  unfold increment. destruct (d !! k) as [n|] eqn:E; simpl.
  - rewrite <- insert_delete_eq.
    rewrite sumCounts_insert_fresh by apply lookup_delete_eq.
    unfold sumCounts.
    rewrite (map_fold_delete_L _ _ k n d); [lia| |exact E].
    intros. lia.
  - rewrite sumCounts_insert_fresh by exact E. reflexivity.
Qed.

Lemma sumCounts_fold_increment {A : Type} (key : A -> string) (l : list A) d :
  sumCounts (fold_left (fun acc x => increment acc (key x)) l d) = sumCounts d + length l.
Proof.
  revert d. induction l as [|x l IH]; intros d; simpl; [lia|].
  rewrite IH, sumCounts_increment. lia.
Qed.

(** X8. Each distribution maps a name to the number of records of the
    primary index that have it as type, as category (unknown when the
    classification or its category is missing) or as priority (low when
    missing), and has no entry, rather than a zero, for a name no record
    has. *)
Theorem distributions_count (b : Bot) (k : string) :
  let entry n := match n with O => None | S _ => Some n end in
  getContentDistribution b !! k =
    entry (countKey (fun e => type (snd e)) k (contentIndex b)) /\
  getCategoryDistribution b !! k =
    entry (countKey (fun e => categoryOf (snd e)) k (contentIndex b)) /\
  getPriorityDistribution b !! k =
    entry (countKey (fun e => priorityOf (snd e)) k (contentIndex b)).
Proof.
  unfold getContentDistribution, getCategoryDistribution, getPriorityDistribution.
  rewrite !fold_increment_lookup. rewrite !lookup_empty. simpl.
  repeat split;
    match goal with |- context [countKey ?f k ?l] => destruct (countKey f k l) end;
    reflexivity.
Qed.

(** X9. Every record is counted once in each distribution: the counts of
    a distribution add up to the size of the primary index. *)
Theorem distributions_total (b : Bot) :
  sumCounts (getContentDistribution b) = JsMap.size (contentIndex b) /\
  sumCounts (getCategoryDistribution b) = JsMap.size (contentIndex b) /\
  sumCounts (getPriorityDistribution b) = JsMap.size (contentIndex b).
Proof.
  unfold getContentDistribution, getCategoryDistribution, getPriorityDistribution.
  rewrite !sumCounts_fold_increment. repeat split; reflexivity.
Qed.

(** * Further properties: the relationship graph *)

Lemma fold_left_sum_lengths {A B : Type} (f : A -> list B) (l : list A) (acc : nat) :
  fold_left (fun a e => a + length (f e)) l acc =
  acc + list_sum (map (fun e => length (f e)) l).
Proof.
  revert acc. induction l as [|x l IH]; intros acc; simpl; [lia|].
  rewrite IH. lia.
Qed.

Lemma totalRelationships_edgeCount b :
  totalRelationships (getRelationshipStats b) = edgeCount (relationshipGraph b).
Proof.
  unfold getRelationshipStats, edgeCount. simpl.
  exact (fold_left_sum_lengths snd (relationshipGraph b) 0).
Qed.

Lemma fold_countType_concat (g : JsMap.t (list Relationship)) (d : gmap string nat) :
  fold_left (fun acc e => fold_left countType (snd e) acc) g d =
  fold_left (fun acc r => increment acc (rel_type r)) (concat (JsMap.values g)) d.
Proof.
  revert d. induction g as [|[k edges] g IH]; intros d; simpl; [reflexivity|].
  rewrite fold_left_app, IH. reflexivity.
Qed.

Lemma length_concat_values (g : JsMap.t (list Relationship)) :
  length (concat (JsMap.values g)) = edgeCount g.
Proof.
  unfold edgeCount. induction g as [|[k edges] g IH]; simpl; [reflexivity|].
  rewrite length_app, IH. reflexivity.
Qed.

(** X10. The statistics count every edge of the graph once: the total is
    the number of edges over all adjacency lists, the per-type counts add
    up to the total, and a type has the number of edges of that type as
    its count, or no entry when there is none. *)
Theorem getRelationshipStats_counts (b : Bot) :
  let stats := getRelationshipStats b in
  totalRelationships stats = edgeCount (relationshipGraph b) /\
  sumCounts (relationshipTypes stats) = totalRelationships stats /\
  forall ty,
    relationshipTypes stats !! ty =
    match countKey rel_type ty (concat (JsMap.values (relationshipGraph b))) with
    | O => None
    | S n => Some (S n)
    end.
Proof.
  cbv zeta. rewrite totalRelationships_edgeCount.
  unfold getRelationshipStats. cbn [relationshipTypes].
  rewrite fold_countType_concat. split; [reflexivity|]. split.
  - rewrite sumCounts_fold_increment. unfold sumCounts at 1.
    rewrite map_fold_empty. apply length_concat_values.
  - intros ty. rewrite fold_increment_lookup, lookup_empty.
    destruct (countKey rel_type ty _); reflexivity.
Qed.

Lemma edgeCount_set_absent k edges (g : JsMap.t (list Relationship)) :
  JsMap.get k g = None ->
  edgeCount (JsMap.set k edges g) = edgeCount g + length edges.
Proof.
  unfold edgeCount. induction g as [|[k1 l1] g IH]; simpl; [lia|].
  destruct (String.eqb k1 k); [discriminate|]. intros H. simpl.
  rewrite IH by assumption. lia.
Qed.

Lemma edgeCount_set_present k edges old (g : JsMap.t (list Relationship)) :
  JsMap.get k g = Some old ->
  edgeCount (JsMap.set k edges g) + length old = edgeCount g + length edges.
Proof.
  unfold edgeCount. induction g as [|[k1 l1] g IH]; simpl; [discriminate|].
  destruct (String.eqb k1 k); simpl.
  - intros [= ->]. lia.
  - intros H. specialize (IH H). lia.
Qed.

Lemma pushRelationship_get_same k g r :
  JsMap.get k (pushRelationship k g r) = Some (default [] (JsMap.get k g) ++ [r]).
Proof.
  unfold pushRelationship, JsMap.has.
  destruct (JsMap.get k g) as [edges|] eqn:E.
  - rewrite E. apply JsMapFacts.get_set_same.
  - rewrite JsMapFacts.get_set_same. apply JsMapFacts.get_set_same.
Qed.

Lemma pushRelationship_get_other k k' g r :
  k <> k' -> JsMap.get k' (pushRelationship k g r) = JsMap.get k' g.
Proof.
  intros Hne. unfold pushRelationship, JsMap.has.
  destruct (JsMap.get k g) as [edges|] eqn:E.
  - rewrite E. now apply JsMapFacts.get_set_other.
  - rewrite JsMapFacts.get_set_same.
    rewrite !JsMapFacts.get_set_other by assumption. reflexivity.
Qed.

Lemma pushRelationship_edgeCount k g r :
  edgeCount (pushRelationship k g r) = S (edgeCount g).
Proof.
  unfold pushRelationship, JsMap.has.
  destruct (JsMap.get k g) as [edges|] eqn:E.
  - rewrite E. pose proof (edgeCount_set_present k (edges ++ [r]) edges g E) as H.
    rewrite length_app in H. simpl in H. lia.
  - rewrite JsMapFacts.get_set_same.
    pose proof (edgeCount_set_present k ([] ++ [r]) [] (JsMap.set k [] g)
                  (JsMapFacts.get_set_same k [] g)) as H.
    rewrite (edgeCount_set_absent k [] g E) in H. simpl in H. simpl. lia.
Qed.

Lemma fold_pushRelationship k rels g :
  JsMap.get k (fold_left (pushRelationship k) rels g) =
    match rels with
    | [] => JsMap.get k g
    | _ :: _ => Some (default [] (JsMap.get k g) ++ rels)
    end /\
  (forall k', k <> k' ->
     JsMap.get k' (fold_left (pushRelationship k) rels g) = JsMap.get k' g) /\
  edgeCount (fold_left (pushRelationship k) rels g) = edgeCount g + length rels.
Proof.
  revert g. induction rels as [|r rels IH]; intros g; simpl.
  - repeat split; auto.
  - destruct (IH (pushRelationship k g r)) as (Hsame & Hother & Hcount).
    repeat split.
    + rewrite Hsame, pushRelationship_get_same.
      destruct rels; simpl; [reflexivity|]. now rewrite <- app_assoc.
    + intros k' Hne. rewrite Hother by assumption.
      now apply pushRelationship_get_other.
    + rewrite Hcount, pushRelationship_edgeCount. lia.
Qed.

(** X11. Updating the graph for a record appends its relationships, in
    order, to the adjacency list under its id, creates no entry for a
    record without relationships, leaves every other id alone, and raises
    the total number of edges by the number of relationships. *)
Theorem updateRelationshipGraph_appends (c : ContentData) (b : Bot) :
  let g := relationshipGraph b in
  let g' := relationshipGraph (updateRelationshipGraph c b) in
  JsMap.get (id c) g' =
    match relationships c with
    | [] => JsMap.get (id c) g
    | _ :: _ => Some (default [] (JsMap.get (id c) g) ++ relationships c)
    end /\
  (forall k, id c <> k -> JsMap.get k g' = JsMap.get k g) /\
  totalRelationships (getRelationshipStats (updateRelationshipGraph c b)) =
    totalRelationships (getRelationshipStats b) + length (relationships c).
Proof.
  cbv zeta. rewrite !totalRelationships_edgeCount.
  unfold updateRelationshipGraph. cbn [relationshipGraph withRelationshipGraph].
  apply fold_pushRelationship.
Qed.

Lemma updateContentRelationships_fold (entries : JsMap.t ContentData) (b : Bot) :
  contentIndex (fold_left (fun acc e => updateRelationshipGraph (snd e) acc) entries b)
    = contentIndex b /\
  edgeCount (relationshipGraph
    (fold_left (fun acc e => updateRelationshipGraph (snd e) acc) entries b)) =
  edgeCount (relationshipGraph b) +
  list_sum (map (fun e => length (relationships (snd e))) entries).
Proof.
  revert b. induction entries as [|e entries IH]; intros b; simpl; [split; [reflexivity | lia]|].
  destruct (IH (updateRelationshipGraph (snd e) b)) as [Hidx Hcount].
  split; [exact Hidx|]. rewrite Hcount.
  destruct (fold_pushRelationship (id (snd e)) (relationships (snd e))
              (relationshipGraph b)) as (_ & _ & Htotal).
  unfold updateRelationshipGraph at 1. cbn [relationshipGraph withRelationshipGraph].
  lia.
Qed.

(** X12. Every pass of updateContentRelationships, and so every full
    discovery pass that finds nothing new, adds the relationships of every
    indexed record to the graph once more: the total number of edges grows
    by their number while the primary index stays as it is. *)
Theorem updateContentRelationships_adds_all_again (b : Bot) :
  let again := list_sum (map (fun e => length (relationships (snd e))) (contentIndex b)) in
  contentIndex (updateContentRelationships b) = contentIndex b /\
  totalRelationships (getRelationshipStats (updateContentRelationships b)) =
    totalRelationships (getRelationshipStats b) + again /\
  forall now,
    totalRelationships (getRelationshipStats (performFullContentDiscovery now [] b)) =
    totalRelationships (getRelationshipStats b) + again.
Proof.
  cbv zeta. rewrite !totalRelationships_edgeCount.
  destruct (updateContentRelationships_fold (contentIndex b) b) as [Hidx Hcount].
  split; [exact Hidx|]. split; [exact Hcount|].
  intros now. rewrite totalRelationships_edgeCount.
  unfold performFullContentDiscovery, indexAll. simpl.
  exact (proj2 (updateContentRelationships_fold (contentIndex b)
                  (resetIndexingStatus now b))).
Qed.

(** * Further properties: what the stores hold in a reachable state *)

Module RelatedFacts.
Section Facts.
Context {V W : Type} (R : V -> W -> Prop).
Implicit Types (m : JsMap.t V) (n : JsMap.t W).

Lemma related_set k v w m n :
  related R m n -> R v w -> related R (JsMap.set k v m) (JsMap.set k w n).
Proof.
  intros Hrel Hvw. induction Hrel as [|[k1 v1] [k2 w2] m n [Hk Hr] Hrel IH]; simpl.
  - constructor; [split; [reflexivity | exact Hvw] | constructor].
  - simpl in Hk. subst k2. destruct (String.eqb k1 k).
    + constructor; [split; [reflexivity | exact Hvw] | exact Hrel].
    + constructor; [split; [reflexivity | exact Hr] | exact IH].
Qed.

Lemma related_delete k m n :
  related R m n -> related R (JsMap.delete k m) (JsMap.delete k n).
Proof.
  intros Hrel. induction Hrel as [|[k1 v1] [k2 w2] m n [Hk Hr] Hrel IH]; simpl.
  - constructor.
  - simpl in Hk. subst k2. destruct (String.eqb k1 k); [exact IH|].
    constructor; [split; [reflexivity | exact Hr] | exact IH].
Qed.

Lemma related_get k m n :
  related R m n ->
  match JsMap.get k m with
  | Some v => exists w, JsMap.get k n = Some w /\ R v w
  | None => JsMap.get k n = None
  end.
Proof.
  intros Hrel. induction Hrel as [|[k1 v1] [k2 w2] m n [Hk Hr] Hrel IH]; simpl.
  - reflexivity.
  - simpl in Hk. subst k2. destruct (String.eqb k1 k); [|exact IH].
    exists w2. split; [reflexivity | exact Hr].
Qed.

End Facts.
End RelatedFacts.

Lemma Forall_set {V : Type} (P : string * V -> Prop) k v (m : JsMap.t V) :
  List.Forall P m -> P (k, v) -> List.Forall P (JsMap.set k v m).
Proof.
  intros Hm Hkv. induction Hm as [|[k1 v1] m Hp Hm IH]; simpl.
  - constructor; [exact Hkv | constructor].
  - destruct (String.eqb k1 k); constructor; auto.
Qed.

Lemma Forall_delete {V : Type} (P : string * V -> Prop) k (m : JsMap.t V) :
  List.Forall P m -> List.Forall P (JsMap.delete k m).
Proof.
  intros Hm. induction Hm as [|[k1 v1] m Hp Hm IH]; simpl.
  - constructor.
  - destruct (String.eqb k1 k); [exact IH | constructor; auto].
Qed.

Lemma Coherent_initial : Coherent initial.
Proof. split; constructor. Qed.

Lemma Coherent_indexContent h c b : Coherent b -> Coherent (indexContent h c b).
Proof.
  intros [Hrec Hcache Hmeta].
  destruct (isDuplicate c b) eqn:Hdup.
  { rewrite indexContent_duplicate by assumption. now split. }
  split.
  - rewrite indexContent_contentIndex by assumption.
    apply Forall_set; [exact Hrec|]. exists h, c, b. split; reflexivity.
  - rewrite indexContent_contentIndex, indexContent_contentCache by assumption.
    apply RelatedFacts.related_set; [exact Hcache | reflexivity].
  - rewrite indexContent_contentIndex, indexContent_metadataStore by assumption.
    apply RelatedFacts.related_set; [exact Hmeta | reflexivity].
Qed.

Lemma Coherent_evictExpired now acc e : Coherent acc -> Coherent (evictExpired now acc e).
Proof.
  intros [Hrec Hcache Hmeta]. unfold evictExpired.
  destruct (expired now (snd e)); [|now split].
  split; simpl.
  - now apply Forall_delete.
  - now apply RelatedFacts.related_delete.
  - now apply RelatedFacts.related_delete.
Qed.

Lemma Coherent_step o b : Coherent b -> Coherent (step o b).
Proof.
  assert (Hall : forall found b', Coherent b' -> Coherent (indexAll found b')).
  { intros found b'. unfold indexAll. apply fold_left_preserves.
    intros a x. apply Coherent_indexContent. }
  assert (Hclean : forall now b', Coherent b' -> Coherent (cleanupOldContent now b')).
  { intros now b'. unfold cleanupOldContent. apply fold_left_preserves.
    intros a x. apply Coherent_evictExpired. }
  intros H. destruct o as [h c|now|found now|now found|]; simpl.
  - now apply Coherent_indexContent.
  - now apply Hclean.
  - now apply Hclean, Hall.
  - unfold performFullContentDiscovery, updateContentRelationships.
    apply fold_left_preserves.
    + intros a x [H1 H2 H3]. now split.
    + apply Hall. destruct H as [H1 H2 H3]. now split.
  - split; constructor.
Qed.

Lemma Reachable_Coherent b : Reachable b -> Coherent b.
Proof.
  induction 1 as [|o b _ IH]; [apply Coherent_initial | now apply Coherent_step].
Qed.

(** X13. In every reachable state a record of the primary index is stored
    under its own id, carries the classification and the searchable text
    computed from its own fields, and the search projection and the
    metadata store hold under the same id the entry derived from it and
    its metadata. *)
Theorem stored_record_coherent (b : Bot) (k : string) (c : ContentData) :
  Reachable b ->
  JsMap.get k (contentIndex b) = Some c ->
  id c = k /\
  classification c = Some (classifyContent c) /\
  searchableText c = Some (buildSearchableText c (classifyContent c)) /\
  JsMap.get k (contentCache b) =
    Some (buildSearchEntry c (classifyContent c)
            (buildSearchableText c (classifyContent c))) /\
  JsMap.get k (metadataStore b) = Some (metadata c).
Proof.
  intros Hreach Hget.
  destruct (Reachable_Coherent b Hreach) as [Hrec Hcache Hmeta].
  pose proof (RelatedFacts.related_get _ k _ _ Hcache) as Hc.
  pose proof (RelatedFacts.related_get _ k _ _ Hmeta) as Hm.
  rewrite Hget in Hc, Hm.
  destruct Hc as (s & Hs & Hproj). destruct Hm as (m & Hm & ->).
  rewrite List.Forall_forall in Hrec.
  destruct (Hrec _ (JsMapFacts.get_in _ _ _ Hget)) as (h & c0 & b0 & Hc & Hk).
  simpl in Hc, Hk. subst c k.
  split; [reflexivity|]. split; [reflexivity|]. split; [reflexivity|].
  split; [|exact Hm]. rewrite Hs. f_equal.
  change (projectionOf (storedRecord h c0 b0)) with (Some (storedEntry h c0 b0)) in Hproj.
  now injection Hproj as <-.
Qed.

Lemma stored_record_coherent_witness :
  Reachable indexedOnce /\
  (exists c, JsMap.get "div_card_health" (contentIndex indexedOnce) = Some c /\
             id c = "div_card_health" /\
             classification c = Some (classifyContent c) /\
             JsMap.get "div_card_health" (metadataStore indexedOnce) = Some (metadata c)).
Proof.
  split; [exact Reachable_indexedOnce|].
  exists (storedRecord (quietHost 1000) healthCard initial).
  assert (Hget : JsMap.get "div_card_health" (contentIndex indexedOnce) =
                 Some (storedRecord (quietHost 1000) healthCard initial))
    by reflexivity.
  destruct (stored_record_coherent indexedOnce _ _ Reachable_indexedOnce Hget)
    as (H1 & H2 & _ & _ & H5).
  repeat split; assumption.
Defined.

(** * Further properties: recommendations *)

Lemma Qlt_bool_false_of_le x y : (y <= x)%Q -> Qlt_bool x y = false.
Proof.
  intros H. unfold Qlt_bool. apply negb_false_iff. now apply Qle_bool_iff.
Qed.

Lemma size_share_nonnegative n : Qlt_bool (numOfNat n * 0.3) (numOfNat 0) = false.
Proof.
  apply Qlt_bool_false_of_le. unfold Qle, numOfNat. simpl. lia.
Qed.

Lemma jsBelow_of_empty total q : jsBelow (jsDivide total 0) q = false.
Proof. destruct total; reflexivity. Qed.

(** X14. The coverage recommendation is made exactly when between one and
    four records are in category dashboard: an index without any dashboard
    record does not get it, the count then being missing, not zero. *)
Theorem coverage_recommendation_iff (stringBelow : string -> Q -> bool) (b : Bot) :
  let dashboards := countKey (fun e => categoryOf (snd e)) "dashboard" (contentIndex b) in
  In coverageRecommendation (generateContentRecommendations stringBelow b) <->
  1 <= dashboards < 5.
Proof.
  cbv zeta. unfold generateContentRecommendations.
  unfold getCategoryDistribution at 1.
  rewrite fold_increment_lookup, lookup_empty. cbn [default].
  rewrite !in_app_iff.
  assert (Hq : forall x : bool,
             ~ In coverageRecommendation (if x then [qualityRecommendation] else [])).
  { intros [|]; simpl; [intros [H|[]]; discriminate H | tauto]. }
  assert (Hr : forall x : bool,
             ~ In coverageRecommendation (if x then [relationshipsRecommendation] else [])).
  { intros [|]; simpl; [intros [H|[]]; discriminate H | tauto]. }
  destruct (countKey _ "dashboard" (contentIndex b)) as [|n]; cbn [Nat.add].
  - split; [|lia]. intros [[]|[H|H]]; [now apply Hq in H | now apply Hr in H].
  - destruct (Nat.ltb_spec (S n) 5) as [Hlt|Hge].
    + split; [lia|]. intros _. left. now left.
    + split; [|lia]. intros [[]|[H|H]]; [now apply Hq in H | now apply Hr in H].
Qed.

(** X15. A bot that holds no record makes no recommendation at all: the
    missing dashboard count, the zero low-quality count and the quotient by
    zero each compare as false. *)
Theorem no_recommendation_for_empty_index (stringBelow : string -> Q -> bool) (b : Bot) :
  contentIndex b = [] ->
  generateContentRecommendations stringBelow b = [].
Proof.
  intros Hempty. unfold generateContentRecommendations, getCategoryDistribution.
  rewrite Hempty. cbn [fold_left List.filter length JsMap.size].
  rewrite lookup_empty, size_share_nonnegative.
  unfold getRelationshipStats. cbn [averageRelationshipsPerContent].
  rewrite Hempty. cbn [JsMap.size length].
  now rewrite jsBelow_of_empty.
Qed.

Lemma no_recommendation_for_empty_index_witness :
  contentIndex evictedLater = [] /\
  generateContentRecommendations (fun _ _ => true) evictedLater = [].
Proof.
  split; [reflexivity|].
  apply (no_recommendation_for_empty_index (fun _ _ => true) evictedLater).
  reflexivity.
Defined.

Lemma qualityScore_at_least_half c : (0.5 <= calculateQualityScore c)%Q.
Proof.
  unfold calculateQualityScore.
  destruct (Str.truthy (title c) && (5 <? String.length (title c)));
    destruct (Str.truthy (description c) && (10 <? String.length (description c)));
    destruct (Str.truthy (text c) && (20 <? String.length (text c)));
    vm_compute; discriminate.
Qed.

Lemma storedRecord_qualityScore h c0 b0 :
  metadata (storedRecord h c0 b0) !! "qualityScore" =
  Some (MNumber (calculateQualityScore c0)).
Proof.
  unfold storedRecord, enrichedRecord. simpl.
  erewrite lookup_union_Some_l; [reflexivity|].
  unfold enrichMetadata.
  rewrite lookup_insert_ne by discriminate. apply lookup_insert_eq.
Qed.

(** X16. In every reachable state no record counts as low quality, its
    stored quality score being the computed one and at least 0.5, so the
    quality recommendation is never made. *)
Theorem quality_recommendation_never (stringBelow : string -> Q -> bool) (b : Bot) :
  Reachable b ->
  (forall e, In e (contentIndex b) -> lowQuality stringBelow (snd e) = false) /\
  forall r, In r (generateContentRecommendations stringBelow b) ->
            rec_type r <> "quality".
Proof.
  intros Hreach.
  destruct (Reachable_Coherent b Hreach) as [Hrec _ _].
  rewrite List.Forall_forall in Hrec.
  assert (Hlow : forall e, In e (contentIndex b) ->
                           lowQuality stringBelow (snd e) = false).
  { intros e He. destruct (Hrec e He) as (h & c0 & b0 & -> & _).
    unfold lowQuality. rewrite storedRecord_qualityScore.
    apply Qlt_bool_false_of_le, qualityScore_at_least_half. }
  split; [exact Hlow|].
  intros r. unfold generateContentRecommendations.
  rewrite (filter_none _ _ Hlow). cbn [length].
  rewrite size_share_nonnegative. rewrite !in_app_iff.
  destruct (getCategoryDistribution b !! "dashboard") as [n|];
    [destruct (n <? 5)|];
    destruct (jsBelow _ 2); simpl; intros H; cases_of_hyps; discriminate.
Qed.

Lemma quality_recommendation_never_witness :
  Reachable indexedOnce /\
  forall r, In r (generateContentRecommendations (fun _ _ => true) indexedOnce) ->
            rec_type r <> "quality".
Proof.
  split; [exact Reachable_indexedOnce|].
  apply (quality_recommendation_never (fun _ _ => true) indexedOnce
           Reachable_indexedOnce).
Defined.

(** * Further properties: search *)

(** X17. A query that no record is eligible for returns the empty
    sequence whatever its words are: no regular expression is built, so
    also a malformed pattern does not throw then, in particular on a bot
    without records. *)
Theorem searchContent_returns_empty_without_match (host : RegExp.Engine)
    (query : string) (f : Filters) (b : Bot) :
  (forall e, In e (contentIndex b) ->
             eligibleb f (Str.toLowerCase query) (snd e) = false) ->
  searchContent host query f b = Returns [].
Proof.
  intros H. unfold searchContent. now rewrite collectResults_none.
Qed.

Lemma searchContent_returns_empty_without_match_witness :
  (forall e, In e (contentIndex indexedOnce) ->
             eligibleb noFilters (Str.toLowerCase "(") (snd e) = false) /\
  searchContent lenientEngine "(" noFilters indexedOnce = Returns [].
Proof.
  assert (H : forall e, In e (contentIndex indexedOnce) ->
                        eligibleb noFilters (Str.toLowerCase "(") (snd e) = false).
  { intros e [<-|[]]. reflexivity. }
  split; [exact H|].
  exact (searchContent_returns_empty_without_match lenientEngine "(" noFilters
           indexedOnce H).
Defined.

(** * Further properties: eviction *)

Lemma delete_as_filter {V : Type} k (m : JsMap.t V) :
  JsMap.delete k m = List.filter (fun e => negb (String.eqb (fst e) k)) m.
Proof.
  induction m as [|[k1 v1] m IH]; simpl; [reflexivity|].
  destruct (String.eqb k1 k); simpl; [exact IH | now f_equal].
Qed.

Lemma filter_filter {A : Type} (p q : A -> bool) (l : list A) :
  List.filter p (List.filter q l) = List.filter (fun x => q x && p x) l.
Proof.
  induction l as [|x l IH]; simpl; [reflexivity|].
  destruct (q x); simpl; [|exact IH].
  destruct (p x); [now f_equal | exact IH].
Qed.

Lemma fold_evictExpired_contentIndex now (entries : JsMap.t ContentData) acc :
  contentIndex (fold_left (evictExpired now) entries acc) =
  List.filter
    (fun e' => negb (existsb (fun e => expired now (snd e) && String.eqb (fst e') (fst e))
                             entries))
    (contentIndex acc).
Proof.
  revert acc. induction entries as [|e entries IH]; intros acc; simpl.
  - induction (contentIndex acc) as [|x l IHl]; simpl; [reflexivity | now f_equal].
  - rewrite IH. unfold evictExpired. destruct (expired now (snd e)); simpl.
    + rewrite delete_as_filter, filter_filter.
      apply filter_ext. intros x. now rewrite negb_orb.
    + reflexivity.
Qed.

Lemma fold_evictExpired_noop now (entries : JsMap.t ContentData) acc :
  (forall e, In e entries -> expired now (snd e) = false) ->
  fold_left (evictExpired now) entries acc = acc.
Proof.
  revert acc. induction entries as [|e entries IH]; intros acc H; simpl; [reflexivity|].
  unfold evictExpired at 2. rewrite (H e) by now left.
  apply IH. intros x Hx. apply H. now right.
Qed.

(** X18. In a reachable state an eviction pass keeps exactly the records
    whose age is at most 24 hours, in their order, a record of exactly 24
    hours included, and a second pass at the same instant changes nothing. *)
Theorem cleanupOldContent_keeps_unexpired (now : Z) (b : Bot) :
  Reachable b ->
  contentIndex (cleanupOldContent now b) =
    List.filter (fun e => negb (expired now (snd e))) (contentIndex b) /\
  (forall e, In e (contentIndex (cleanupOldContent now b)) <->
             In e (contentIndex b) /\ (now - timestamp (snd e) <= 86400000)%Z) /\
  cleanupOldContent now (cleanupOldContent now b) = cleanupOldContent now b.
Proof.
  intros Hreach.
  destruct (Reachable_Consistent b Hreach) as [_ Hkeys _].
  assert (Hidx : contentIndex (cleanupOldContent now b) =
                 List.filter (fun e => negb (expired now (snd e))) (contentIndex b)).
  { unfold cleanupOldContent. rewrite fold_evictExpired_contentIndex.
    apply filter_ext_in. intros e' He'. f_equal.
    apply eq_true_iff_eq. rewrite existsb_exists. split.
    - intros (e & He & H). apply andb_true_iff in H. destruct H as [Hexp Hk].
      apply String.eqb_eq in Hk.
      now rewrite (JsMapFacts.NoDup_keys_entry _ e' e Hkeys He' He Hk).
    - intros Hexp. exists e'. split; [exact He'|].
      now rewrite Hexp, String.eqb_refl. }
  assert (Hin : forall e, In e (contentIndex (cleanupOldContent now b)) <->
                  In e (contentIndex b) /\ (now - timestamp (snd e) <= 86400000)%Z).
  { intros e. rewrite Hidx, filter_In, negb_true_iff. unfold expired, maxAge.
    rewrite Z.ltb_ge. simpl. tauto. }
  split; [exact Hidx|]. split; [exact Hin|].
  unfold cleanupOldContent at 1. apply fold_evictExpired_noop.
  intros e He. apply Hin in He. destruct He as [_ Hage].
  unfold expired, maxAge. apply Z.ltb_ge. simpl. exact Hage.
Qed.

Lemma cleanupOldContent_keeps_unexpired_witness :
  Reachable indexedOnce /\
  contentIndex (cleanupOldContent (1000 + oneDay) indexedOnce) =
    contentIndex indexedOnce /\
  contentIndex (cleanupOldContent (1001 + oneDay) indexedOnce) = [].
Proof.
  split; [exact Reachable_indexedOnce|]. split.
  - rewrite (proj1 (cleanupOldContent_keeps_unexpired (1000 + oneDay) indexedOnce
                      Reachable_indexedOnce)).
    reflexivity.
  - rewrite (proj1 (cleanupOldContent_keeps_unexpired (1001 + oneDay) indexedOnce
                      Reachable_indexedOnce)).
    reflexivity.
Defined.

(** * Further properties: ingestion *)

Lemma size_set {V : Type} k (v : V) (m : JsMap.t V) :
  JsMap.size (JsMap.set k v m) =
  if JsMap.has k m then JsMap.size m else S (JsMap.size m).
Proof.
  unfold JsMap.size, JsMap.has. induction m as [|[k1 v1] m IH]; simpl; [reflexivity|].
  destruct (String.eqb k1 k); simpl; [reflexivity|].
  rewrite IH. now destruct (JsMap.get k m).
Qed.

(** X19. An ingestion that is not a duplicate stores the completed record
    under its id: it replaces the record that id had, leaving the size of
    the primary index as it was, or adds one record when the id is new;
    the stored record keeps the text, source, timestamp and relationships
    it came with. *)
Theorem indexContent_replaces_or_adds (h : Host) (c : ContentData) (b : Bot) :
  isDuplicate c b = false ->
  let b' := indexContent h c b in
  JsMap.size (contentIndex b') =
    (if JsMap.has (id c) (contentIndex b) then JsMap.size (contentIndex b)
     else S (JsMap.size (contentIndex b))) /\
  (forall k, id c <> k -> JsMap.get k (contentIndex b') = JsMap.get k (contentIndex b)) /\
  exists stored,
    JsMap.get (id c) (contentIndex b') = Some stored /\
    text stored = text c /\ source stored = source c /\
    timestamp stored = timestamp c /\ relationships stored = relationships c.
Proof.
  intros Hfresh. cbv zeta. rewrite indexContent_contentIndex by assumption.
  split; [apply size_set|]. split.
  - intros k Hne. now apply JsMapFacts.get_set_other.
  - exists (storedRecord h c b). split; [apply JsMapFacts.get_set_same|].
    repeat split; reflexivity.
Qed.

Lemma indexContent_replaces_or_adds_witness :
  isDuplicate formulaCell indexedOnce = false /\
  JsMap.size (contentIndex (indexContent (quietHost 2000) formulaCell indexedOnce)) = 2.
Proof.
  split; [reflexivity|].
  destruct (indexContent_replaces_or_adds (quietHost 2000) formulaCell indexedOnce
              eq_refl) as (Hsize & _).
  exact Hsize.
Defined.


(** X21. An ingestion that is not a duplicate counts one more indexed
    record and stamps lastIndexed with the clock; when the notification of
    window.modernSearch throws it also counts one failure, and the record
    is then nevertheless in the primary index and the search projection. *)
Theorem indexContent_counters (h : Host) (c : ContentData) (b : Bot) :
  isDuplicate c b = false ->
  let st := indexingStatus b in
  let st' := indexingStatus (indexContent h c b) in
  let notified :=
    match modernSearch h with
    | Some addSearchableContent => addSearchableContent (storedEntry h c b)
    | None => true
    end in
  indexedContent st' = S (indexedContent st) /\
  lastIndexed st' = Some (clockStatus h) /\
  pendingContent st' = pendingContent st /\
  failedContent st' = (if notified then failedContent st else S (failedContent st)) /\
  JsMap.has (id c) (contentIndex (indexContent h c b)) = true /\
  JsMap.has (id c) (contentCache (indexContent h c b)) = true.
Proof.
  intros Hfresh. cbv zeta.
  assert (Hidx : JsMap.has (id c) (contentIndex (indexContent h c b)) = true).
  { rewrite indexContent_contentIndex by assumption.
    unfold JsMap.has. now rewrite JsMapFacts.get_set_same. }
  assert (Hcache : JsMap.has (id c) (contentCache (indexContent h c b)) = true).
  { rewrite indexContent_contentCache by assumption.
    unfold JsMap.has. now rewrite JsMapFacts.get_set_same. }
  rewrite Hidx, Hcache. clear Hidx Hcache.
  unfold indexContent, optimizeForSearch, updateSearchIndex.
  rewrite Hfresh. simpl.
  destruct (modernSearch h) as [notify|]; simpl.
  - change (buildSearchEntry _ _ _) with (storedEntry h c b).
    destruct (notify (storedEntry h c b)); simpl; repeat split; auto.
  - repeat split; auto.
Qed.

Lemma indexContent_counters_witness :
  isDuplicate healthCard initial = false /\
  indexedContent (indexingStatus
    (indexContent {| clockEnrich := 1000; clockStatus := 1001;
                     modernSearch := Some (fun _ => false) |} healthCard initial)) = 1 /\
  failedContent (indexingStatus
    (indexContent {| clockEnrich := 1000; clockStatus := 1001;
                     modernSearch := Some (fun _ => false) |} healthCard initial)) = 1.
Proof.
  split; [reflexivity|].
  destruct (indexContent_counters
              {| clockEnrich := 1000; clockStatus := 1001;
                 modernSearch := Some (fun _ => false) |} healthCard initial eq_refl)
    as (H1 & _ & _ & H4 & _).
  split; [exact H1 | exact H4].
Defined.

(** X22. The metadata stored for a record is the metadata it came with,
    with the five computed keys added or overwritten: under contentLength,
    wordCount, language, qualityScore and updateFrequency it holds the
    computed value, whatever came in under that key, and every other key
    is kept. *)
Theorem enriched_keys_win (h : Host) (c : ContentData) (b : Bot) :
  isDuplicate c b = false ->
  exists m,
    JsMap.get (id c) (metadataStore (indexContent h c b)) = Some m /\
    m !! "contentLength" = Some (MNumber (numOfNat (String.length (text c)))) /\
    m !! "wordCount" = Some (MNumber (numOfNat (length (Str.splitWs (text c))))) /\
    m !! "language" = Some (MString (detectLanguage (text c))) /\
    m !! "qualityScore" = Some (MNumber (calculateQualityScore c)) /\
    m !! "updateFrequency" =
      Some (MString (calculateUpdateFrequency (clockEnrich h) (id c) b)) /\
    forall key,
      ~ In key ["contentLength"; "wordCount"; "language"; "qualityScore";
                "updateFrequency"] ->
      m !! key = metadata c !! key.
Proof.
  intros Hfresh. eexists. split.
  { rewrite indexContent_metadataStore by assumption. apply JsMapFacts.get_set_same. }
  unfold enrichedRecord. cbn [metadata setMetadata setClassification].
  unfold enrichMetadata. cbn [text id].
  repeat split.
  - erewrite lookup_union_Some_l; [reflexivity|].
    rewrite !lookup_insert_ne by discriminate. apply lookup_insert_eq.
  - erewrite lookup_union_Some_l; [reflexivity|].
    rewrite !lookup_insert_ne by discriminate. apply lookup_insert_eq.
  - erewrite lookup_union_Some_l; [reflexivity|].
    rewrite !lookup_insert_ne by discriminate. apply lookup_insert_eq.
  - erewrite lookup_union_Some_l; [reflexivity|].
    rewrite !lookup_insert_ne by discriminate. apply lookup_insert_eq.
  - erewrite lookup_union_Some_l; [reflexivity|]. apply lookup_insert_eq.
  - intros key Hkey. apply lookup_union_r.
    rewrite !lookup_insert_ne; [apply lookup_empty| | | | |];
      intros <-; apply Hkey; simpl; tauto.
Qed.

Lemma enriched_keys_win_witness :
  isDuplicate annotatedNote initial = false /\
  exists m,
    JsMap.get "p_note"
      (metadataStore (indexContent (quietHost 4000) annotatedNote initial)) = Some m /\
    m !! "wordCount" = Some (MNumber (numOfNat 3)) /\
    m !! "updateFrequency" = Some (MString "unknown") /\
    m !! "data-owner" = Some (MString "ops").
Proof.
  split; [reflexivity|].
  destruct (enriched_keys_win (quietHost 4000) annotatedNote initial eq_refl)
    as (m & Hget & _ & Hwords & _ & _ & Hfreq & Hother).
  exists m. split; [exact Hget|]. split; [exact Hwords|]. split; [exact Hfreq|].
  rewrite Hother; [reflexivity|].
  simpl. intros H. cases_of_hyps; discriminate.
Defined.

(** * Further properties: an indexed record is found by its own text *)

Module IncludesFacts.

Lemma startsWith_append s rest : Str.startsWith s (s +:+ rest) = true.
Proof.
  induction s as [|a s IH]; [now destruct rest|].
  change (Str.startsWith (String a s) (String a (s +:+ rest)) = true).
  simpl. now rewrite Ascii.eqb_refl, IH.
Qed.

Lemma includes_of_startsWith s sub : Str.startsWith sub s = true -> Str.includes s sub = true.
Proof. intros H. destruct s; simpl; now rewrite H. Qed.

Lemma includes_after before s sub :
  Str.includes s sub = true -> Str.includes (before +:+ s) sub = true.
Proof.
  intros H. induction before as [|a before IH]; [exact H|].
  change (Str.includes (String a (before +:+ s)) sub = true).
  simpl. rewrite IH. apply orb_true_r.
Qed.

Lemma includes_middle before s rest :
  Str.includes (before +:+ s +:+ rest) s = true.
Proof. apply includes_after, includes_of_startsWith, startsWith_append. Qed.

Lemma append_empty_r s : s +:+ "" = s.
Proof.
  induction s as [|x s IH]; [reflexivity|].
  change (String x (s +:+ "") = String x s). now f_equal.
Qed.

Lemma join_three sep a b c rest :
  exists tail, Str.join sep (a :: b :: c :: rest) = a +:+ sep +:+ b +:+ sep +:+ c +:+ tail.
Proof.
  destruct rest as [|t rest].
  - exists EmptyString. simpl. now rewrite append_empty_r.
  - exists (sep +:+ Str.join sep (t :: rest)). reflexivity.
Qed.

End IncludesFacts.

Lemma searchableText_includes_text (c : ContentData) (cl : Classification) :
  Str.includes (buildSearchableText c cl) (Str.toLowerCase (text c)) = true /\
  Str.includes (buildSearchableText c cl) (Str.toLowerCase (title c)) = true.
Proof.
  unfold buildSearchableText. cbn [app].
  destruct (IncludesFacts.join_three " " (title c) (description c) (text c) (tags cl))
    as [tail ->].
  rewrite !StrFacts.toLowerCase_append. split.
  - rewrite <- (StrFacts.append_assoc (Str.toLowerCase (description c))).
    rewrite <- (StrFacts.append_assoc (Str.toLowerCase " ")).
    rewrite <- (StrFacts.append_assoc (Str.toLowerCase (title c))).
    apply IncludesFacts.includes_middle.
  - apply IncludesFacts.includes_of_startsWith, IncludesFacts.startsWith_append.
Qed.

(** X23. In every reachable state a record of the primary index is found
    by its own text and by its own title: used as a query without filters,
    either one returns a result sequence that contains the record, as long
    as its words hold no regular-expression syntax character. *)
Theorem indexed_record_found_by_own_text (host : RegExp.Engine) (b : Bot)
    (k : string) (c : ContentData) (query : string) :
  Reachable b ->
  JsMap.get k (contentIndex b) = Some c ->
  query = text c \/ query = title c ->
  literalQuery (Str.toLowerCase query) = true ->
  exists results,
    searchContent host query noFilters b = Returns results /\
    In c (map content results).
Proof.
  intros Hreach Hget Hquery Hlit.
  assert (Hst : searchableText c = Some (buildSearchableText c (classifyContent c))).
  { destruct (Reachable_Coherent b Hreach) as [Hrec _ _].
    rewrite List.Forall_forall in Hrec.
    destruct (Hrec _ (JsMapFacts.get_in _ _ _ Hget)) as (h & c0 & b0 & Hc & _).
    simpl in Hc. now subst c. }
  rewrite (searchContent_literal host query noFilters b Hlit).
  eexists. split; [reflexivity|].
  apply (Permutation_in (l := List.filter (eligibleb noFilters (Str.toLowerCase query))
                                 (JsMap.values (contentIndex b)))).
  - rewrite <- (content_of_scored (Str.toLowerCase query)) at 1.
    apply Permutation_map. symmetry. apply sortByRelevance_perm.
  - apply filter_In. split.
    + apply JsMapFacts.get_in in Hget. now apply (in_map snd) in Hget.
    + unfold eligibleb, searchableTextOf. rewrite Hst. simpl.
      destruct (searchableText_includes_text c (classifyContent c)) as [Ht Hti].
      destruct Hquery as [->| ->]; assumption.
Qed.

Lemma indexed_record_found_by_own_text_witness :
  Reachable indexedOnce /\
  exists results,
    searchContent lenientEngine "Dashboard system health metric" noFilters indexedOnce
      = Returns results /\
    In (storedRecord (quietHost 1000) healthCard initial) (map content results).
Proof.
  split; [exact Reachable_indexedOnce|].
  apply (indexed_record_found_by_own_text lenientEngine indexedOnce "div_card_health"
           (storedRecord (quietHost 1000) healthCard initial)
           "Dashboard system health metric" Reachable_indexedOnce);
    [reflexivity | left; reflexivity | reflexivity].
Defined.

(** * Further properties: the refresh pass *)

Lemma cleanup_survivor now b e :
  In e (contentIndex (cleanupOldContent now b)) ->
  In e (contentIndex b) /\ expired now (snd e) = false.
Proof.
  unfold cleanupOldContent. rewrite fold_evictExpired_contentIndex, filter_In.
  intros [Hin Hnone]. split; [exact Hin|].
  apply negb_true_iff in Hnone.
  destruct (expired now (snd e)) eqn:Hexp; [|reflexivity].
  assert (Hex : existsb (fun e0 => expired now (snd e0) && String.eqb (fst e) (fst e0))
                        (contentIndex b) = true).
  { apply existsb_exists. exists e. split; [exact Hin|].
    now rewrite Hexp, String.eqb_refl. }
  congruence.
Qed.

Lemma in_set_other {V : Type} k (v : V) (m : JsMap.t V) e :
  In e m -> fst e <> k -> In e (JsMap.set k v m).
Proof.
  intros Hin Hne. induction m as [|[k1 v1] m IH]; simpl; [destruct Hin|].
  destruct (String.eqb_spec k1 k) as [->|Hk]; simpl.
  - destruct Hin as [<-|Hin]; [now contradiction Hne | now right].
  - destruct Hin as [<-|Hin]; [now left | right; now apply IH].
Qed.

Lemma indexContent_keeps_record h c' b k c :
  In (k, c) (contentIndex b) ->
  (id c' = k -> sameContent c' c) ->
  In (k, c) (contentIndex (indexContent h c' b)).
Proof.
  intros Hin Hsame.
  destruct (isDuplicate c' b) eqn:Hdup.
  - now rewrite indexContent_duplicate.
  - rewrite indexContent_contentIndex by assumption.
    apply in_set_other; [exact Hin|]. simpl. intros Hk.
    assert (isDuplicate c' b = true); [|congruence].
    apply isDuplicate_true_iff. exists (k, c). split; [exact Hin|].
    destruct (Hsame (eq_sym Hk)) as [Ht Hs]. split; simpl; congruence.
Qed.

Lemma indexAll_keeps_record found b k c :
  Reachable b ->
  In (k, c) (contentIndex b) ->
  (forall hc, In hc found -> id (snd hc) = k -> sameContent (snd hc) c) ->
  Reachable (indexAll found b) /\ In (k, c) (contentIndex (indexAll found b)).
Proof.
  unfold indexAll. revert b.
  induction found as [|[h c'] found IH]; intros b Hreach Hin Hscan; simpl.
  - split; assumption.
  - apply IH.
    + apply (reach_step (OIndex h c')), Hreach.
    + apply indexContent_keeps_record; [exact Hin|].
      apply (Hscan (h, c')). now left.
    + intros hc Hhc. apply Hscan. now right.
Qed.

(** X24. A refresh pass does not renew a record.  When an indexed record
    is older than 24 hours and no capture of the scan comes under its id
    with another content, the captures of its content are dropped as
    duplicates of it and it is then evicted: after the pass its id is in
    none of the three stores and no record of the index has its content,
    whatever else the scan brought. *)
Theorem refresh_drops_recaptured_expired (found : list (Host * ContentData)) (now : Z)
    (b : Bot) (k : string) (c : ContentData) :
  Reachable b ->
  In (k, c) (contentIndex b) ->
  expired now c = true ->
  (forall hc, In hc found -> id (snd hc) = k -> sameContent (snd hc) c) ->
  absentEverywhere k (refreshContentIndex found now b) /\
  forall fresh, sameContent fresh c ->
                isDuplicate fresh (refreshContentIndex found now b) = false.
Proof.
  intros Hreach Hin Hexp Hscan.
  destruct (indexAll_keeps_record found b k c Hreach Hin Hscan) as [Hreach1 Hin1].
  unfold refreshContentIndex.
  split; [now apply (fold_evictExpired_absent now k c)|].
  intros fresh Hsame. apply not_true_is_false. intros Htrue.
  apply isDuplicate_true_iff in Htrue. destruct Htrue as (e & He & Hse).
  apply cleanup_survivor in He. destruct He as [He Hage].
  destruct (Reachable_Consistent _ Hreach1) as [_ _ Hdedup].
  assert (e = (k, c)).
  { apply Hdedup; [exact He | exact Hin1|].
    destruct Hsame as [Ht Hs], Hse as [Ht' Hs']. split; simpl; congruence. }
  subst e. simpl in Hage. congruence.
Qed.

Lemma refresh_drops_recaptured_expired_witness :
  let later := (1000 + 2 * oneDay)%Z in
  let scan := [(quietHost later, formulaCell); (quietHost later, healthCardAt later)] in
  Reachable indexedOnce /\
  expired later (storedRecord (quietHost 1000) healthCard initial) = true /\
  absentEverywhere "div_card_health" (refreshContentIndex scan later indexedOnce) /\
  isDuplicate (healthCardAt later) (refreshContentIndex scan later indexedOnce) = false.
Proof.
  cbv zeta.
  split; [exact Reachable_indexedOnce|]. split; [reflexivity|].
  destruct (refresh_drops_recaptured_expired
              [(quietHost (1000 + 2 * oneDay), formulaCell);
               (quietHost (1000 + 2 * oneDay), healthCardAt (1000 + 2 * oneDay))]
              (1000 + 2 * oneDay)%Z indexedOnce "div_card_health"
              (storedRecord (quietHost 1000) healthCard initial) Reachable_indexedOnce)
    as [Habsent Hnone].
  - left. reflexivity.
  - reflexivity.
  - intros hc [<-|[<-|[]]]; simpl; intros Hid; [discriminate Hid | split; reflexivity].
  - split; [exact Habsent|]. apply Hnone. split; reflexivity.
Defined.

(** * Further properties: the title of an AJAX record *)

Lemma includes_slash_cons a s :
  Str.includes (String a s) "/" = Ascii.eqb "/" a || Str.includes s "/".
Proof.
  change (Str.includes (String a s) "/")
    with (Ascii.eqb "/" a && Str.startsWith "" s || Str.includes s "/").
  destruct s; now rewrite andb_true_r.
Qed.

Lemma lastSegmentFrom_exact cur s :
  (Str.includes s "/" = false -> Dom.lastSegmentFrom cur s = cur +:+ s) /\
  (Str.includes s "/" = true ->
   Str.includes (Dom.lastSegmentFrom cur s) "/" = false /\
   exists before, s = before +:+ "/" +:+ Dom.lastSegmentFrom cur s).
Proof.
  revert cur. induction s as [|a s IH]; intros cur.
  - split; [intros _; symmetry; apply IncludesFacts.append_empty_r | discriminate].
  - rewrite includes_slash_cons.
    change (Dom.lastSegmentFrom cur (String a s))
      with (if Ascii.eqb a "/" then Dom.lastSegmentFrom EmptyString s
            else Dom.lastSegmentFrom (cur +:+ String a EmptyString) s).
    rewrite (Ascii.eqb_sym a "/").
    destruct (Ascii.eqb_spec "/"%char a) as [<-|Hne]; simpl orb.
    + split; [discriminate|]. intros _.
      destruct (IH EmptyString) as [Hplain Hslash].
      destruct (Str.includes s "/") eqn:Hs.
      * destruct (Hslash eq_refl) as [Hno [before Hb]].
        split; [exact Hno|]. exists (String "/" before).
        change (String "/" s =
                String "/" (before +:+ "/" +:+ Dom.lastSegmentFrom "" s)).
        now f_equal.
      * rewrite (Hplain eq_refl). split; [exact Hs|]. exists EmptyString. reflexivity.
    + destruct (IH (cur +:+ String a EmptyString)) as [Hplain Hslash]. split.
      * intros Hs. rewrite (Hplain Hs). apply StrFacts.append_assoc.
      * intros Hs. destruct (Hslash Hs) as [Hno [before Hb]].
        split; [exact Hno|]. exists (String a before).
        change (String a s =
                String a (before +:+ "/" +:+
                          Dom.lastSegmentFrom (cur +:+ String a "") s)).
        now f_equal.
Qed.

Lemma lastSegmentFrom_trailing_slash cur url :
  Dom.lastSegmentFrom cur (url +:+ "/") = EmptyString.
Proof.
  revert cur. induction url as [|a url IH]; intros cur; [reflexivity|].
  change (Dom.lastSegmentFrom cur (String a (url +:+ "/")) = "").
  simpl. destruct (Ascii.eqb a "/"); apply IH.
Qed.

(** X25. The title of an AJAX record is the part of the URL after its
    last slash: it holds no slash, it is the whole URL when the URL has no
    slash, and otherwise the URL is some text, a slash and the title; so a
    URL that ends in a slash gives an empty title. *)
Theorem ajaxContent_title (now : Z) (url payload : string) :
  Str.includes (title (ajaxContent now url payload)) "/" = false /\
  (Str.includes url "/" = false -> title (ajaxContent now url payload) = url) /\
  (Str.includes url "/" = true ->
   exists before, url = before +:+ "/" +:+ title (ajaxContent now url payload)) /\
  title (ajaxContent now (url +:+ "/") payload) = EmptyString.
Proof.
  cbn [title ajaxContent]. unfold Dom.lastSegment.
  destruct (lastSegmentFrom_exact EmptyString url) as [Hplain Hslash].
  split; [|split; [exact Hplain|split]].
  - destruct (Str.includes url "/") eqn:Hs.
    + apply (Hslash eq_refl).
    + now rewrite (Hplain eq_refl).
  - intros Hs. apply (Hslash Hs).
  - apply lastSegmentFrom_trailing_slash.
Qed.

(** * Further properties: from the type of an element to its category *)

(** X7. A record whose type is the one detected for its element, and is
    one of dashboard, service, metric, user and system, is never classified
    unknown, whatever its text and title say; with type system its
    category is system. *)
Theorem typed_element_is_classified (e : ElementView) (c : ContentData) :
  type c = detectContentType e ->
  In (detectContentType e) ["dashboard"; "service"; "metric"; "user"; "system"] ->
  category (classifyContent c) <> "unknown" /\
  Str.includes (Str.toLowerCase (el_className e)) (type c) = true /\
  (type c = "system" -> category (classifyContent c) = "system").
Proof.
  intros Htype Hin.
  destruct (detectContentType_range e) as (_ & _ & Hclass).
  specialize (Hclass Hin). rewrite <- Htype in Hin, Hclass.
  split; [|split; [exact Hclass|]].
  - unfold classifyContent.
    destruct (Str.includes (classifyText c) "dashboard" || String.eqb (type c) "dashboard")
      eqn:Hd;
    destruct (Str.includes (classifyText c) "service" || String.eqb (type c) "service")
      eqn:Hs;
    destruct (Str.includes (classifyText c) "metric"
              || Str.includes (classifyText c) "performance"
              || String.eqb (type c) "metric") eqn:Hm;
    destruct (Str.includes (classifyText c) "user" || Str.includes (classifyText c) "profile"
              || String.eqb (type c) "user") eqn:Hu;
    destruct (Str.includes (classifyText c) "system" || Str.includes (classifyText c) "config"
              || String.eqb (type c) "system") eqn:Hy;
    cbn [category withRule]; try discriminate.
    exfalso.
    repeat match goal with
           | H : (_ || _) = false |- _ => apply orb_false_elim in H; destruct H
           end.
    simpl in Hin.
    destruct Hin as [Hq|[Hq|[Hq|[Hq|[Hq|[]]]]]]; rewrite <- Hq in *;
      simpl in *; discriminate.
  - intros Hsys. unfold classifyContent.
    destruct (Str.includes (classifyText c) "system" || Str.includes (classifyText c) "config"
              || String.eqb (type c) "system") eqn:Hy; [reflexivity|].
    apply orb_false_elim in Hy. destruct Hy as [_ Hy].
    rewrite Hsys in Hy. discriminate Hy.
Qed.

Lemma typed_element_is_classified_witness :
  let card := {| el_tagName := "DIV"; el_id := "cfg"; el_className := "panel System";
                 el_textContent := "Retention"; el_href := "" |} in
  let record := {| id := generateContentId card; type := detectContentType card;
                   title := ""; description := ""; text := "Retention";
                   metadata := ∅; relationships := []; timestamp := 0; source := "dom";
                   classification := None; searchableText := None |} in
  In (detectContentType card) ["dashboard"; "service"; "metric"; "user"; "system"] /\
  category (classifyContent record) = "system".
Proof.
  cbv zeta. split; [simpl; tauto|].
  eapply (typed_element_is_classified
            {| el_tagName := "DIV"; el_id := "cfg"; el_className := "panel System";
               el_textContent := "Retention"; el_href := "" |}).
  - reflexivity.
  - simpl. tauto.
  - reflexivity.
Defined.
